(** * job-hunter-plus: the text-preprocessing pipeline and the scoring loop

    A shallow embedding of [src/nlp_processing.py] (class [NLPProcessing])
    and [src/build_model.py] (class [JHPModel]).

    - Python values are the inductive type [pyval]; objects of classes that
      live outside the two modules (data frames, sparse matrices, fitted
      classifiers) are [PyObj] values whose operations are supplied by the
      collaborators record [Collaborators].
    - A method is a function from the receiver's state to a result and the
      receiver's new state ([M]); an exception keeps the mutations made
      before it was raised, as in Python.
    - numpy's float64 arithmetic is modelled by [fl]: exact rationals for the
      finite values (rounding is not modelled) and the three special values
      of IEEE 754, which is what division by zero produces in numpy. *)

From Stdlib Require Import List String Ascii ZArith QArith Qreduction Bool Lia.
From Stdlib Require Permutation Sorted OrderedTypeEx.
Import ListNotations.
Open Scope string_scope.
Open Scope Z_scope.

(** ** Exceptions *)

Inductive error : Type :=
| AttributeError (msg : string)
| NotFittedError
| TypeError
| ValueError
| KeyError
| OtherError (name : string).

Inductive exc (A : Type) : Type :=
| Ok (a : A)
| Raise (e : error).
Arguments Ok {A} a.
Arguments Raise {A} e.

Definition exc_bind {A B} (r : exc A) (f : A -> exc B) : exc B :=
  match r with
  | Ok a => f a
  | Raise e => Raise e
  end.

Notation "x <~ r ;; k" := (exc_bind r (fun x => k))
  (at level 100, r at next level, right associativity).

Definition is_ok {A} (r : exc A) : bool :=
  match r with Ok _ => true | Raise _ => false end.

(** ** Methods: state passing with exceptions *)

Definition M (S A : Type) : Type := S -> exc A * S.

Definition ret {S A} (a : A) : M S A := fun s => (Ok a, s).

Definition bind {S A B} (m : M S A) (f : A -> M S B) : M S B :=
  fun s => match m s with
           | (Ok a, s') => f a s'
           | (Raise e, s') => (Raise e, s')
           end.

Definition raise {S A} (e : error) : M S A := fun s => (Raise e, s).

Definition get {S} : M S S := fun s => (Ok s, s).

Definition modify {S} (f : S -> S) : M S unit := fun s => (Ok tt, f s).

(** A call that cannot touch the receiver: a collaborator or a pure helper. *)
Definition call {S A} (r : exc A) : M S A := fun s => (r, s).

Declare Scope method_scope.
Delimit Scope method_scope with method.
Notation "x <- m ;; k" := (bind m (fun x => k))
  (at level 100, m at next level, right associativity) : method_scope.
Notation "' pat <- m ;; k" := (bind m (fun x => match x with pat => k end))
  (at level 100, pat pattern, m at next level, right associativity) : method_scope.
Notation "m ;; k" := (bind m (fun _ => k))
  (at level 100, right associativity) : method_scope.

(** ** numpy floats *)

Inductive fl : Type :=
| Fin (q : Q)
| PInf
| NInf
| NaN.

Definition Qis_zero (q : Q) : bool := Qeq_bool q 0.
Definition Qis_pos (q : Q) : bool := negb (Qle_bool q 0).

Definition fadd (a b : fl) : fl :=
  match a, b with
  | NaN, _ | _, NaN => NaN
  | PInf, NInf | NInf, PInf => NaN
  | PInf, _ | _, PInf => PInf
  | NInf, _ | _, NInf => NInf
  | Fin x, Fin y => Fin (Qred (x + y))
  end.

(** Division as numpy performs it under its default error settings: a zero
    divisor gives a special value (and a warning), never an exception.
    Zero is taken as positive zero. *)
Definition fdiv (a b : fl) : fl :=
  match a, b with
  | NaN, _ | _, NaN => NaN
  | Fin x, Fin y =>
      if Qis_zero y then
        if Qis_zero x then NaN else if Qis_pos x then PInf else NInf
      else Fin (Qred (x / y))
  | Fin _, _ => Fin 0
  | PInf, Fin y => if Qis_zero y then PInf else if Qis_pos y then PInf else NInf
  | NInf, Fin y => if Qis_zero y then NInf else if Qis_pos y then NInf else PInf
  | _, _ => NaN
  end.

Definition is_finite (a : fl) : bool :=
  match a with Fin _ => true | _ => false end.

(** Equality of floats up to the representation of the fraction. *)
Definition feq (a b : fl) : Prop :=
  match a, b with
  | Fin x, Fin y => (x == y)%Q
  | PInf, PInf | NInf, NInf | NaN, NaN => True
  | _, _ => False
  end.

Definition fl_of_Z (z : Z) : fl := Fin (inject_Z z).

Definition fsum (l : list fl) : fl := fold_left fadd l (Fin 0).

(** ** Python values *)

#[warnings="-register-all"]
Inductive pyval : Type :=
| PyNone
| PyBool (b : bool)
| PyInt (z : Z)
| PyFloat (x : fl)
| PyStr (s : string)
| PyList (l : list pyval)
| PyTuple (l : list pyval)
| PyObj (cls : string) (fields : list pyval).

(** [isinstance(v, str)] *)
Definition isinstance_str (v : pyval) : bool :=
  match v with PyStr _ => true | _ => false end.

(** [v is None] *)
Definition is_None (v : pyval) : bool :=
  match v with PyNone => true | _ => false end.

(** [v == ""] *)
Definition eq_empty_str (v : pyval) : bool :=
  match v with PyStr s => String.eqb s "" | _ => false end.

(** ** Strings *)

(** [needle in hay] for two strings. *)
Fixpoint substring_in (needle hay : string) : bool :=
  String.prefix needle hay ||
  match hay with
  | EmptyString => false
  | String _ rest => substring_in needle rest
  end.

(** [text.split(" ")]: every single space separates, so consecutive spaces
    give empty words. *)
Fixpoint split_space_acc (cur : string) (text : string) : list string :=
  match text with
  | EmptyString => [cur]
  | String c rest =>
      if Ascii.eqb c " "%char
      then cur :: split_space_acc "" rest
      else split_space_acc (cur ++ String c "") rest
  end.

Definition split_space (text : string) : list string := split_space_acc "" text.

(** [" ".join(words)] *)
Definition join_space (words : list string) : string := String.concat " " words.

(** [word in stop_words] for a set of strings. *)
Definition in_set (word : string) (set : list string) : bool :=
  existsb (String.eqb word) set.

Definition chars_of (s : string) : list string :=
  map (fun c => String c "") (list_ascii_of_string s).

(** ** numpy arrays

    A two-dimensional array is the list of its rows; every array numpy builds
    is rectangular. *)

Definition matrix : Type := list (list fl).

Definition nrows (m : matrix) : nat := List.length m.
Definition ncols (m : matrix) : nat :=
  match m with [] => 0%nat | row :: _ => List.length row end.

Definition cell (m : matrix) (i j : nat) : fl := nth j (nth i m []) (Fin 0).

(** [np.zeros((r, c))] *)
Definition np_zeros (r c : pyval) : exc matrix :=
  match r, c with
  | PyInt r, PyInt c =>
      if (r <? 0) || (c <? 0) then Raise ValueError
      else Ok (repeat (repeat (Fin 0) (Z.to_nat c)) (Z.to_nat r))
  | _, _ => Raise TypeError
  end.

(** [np.diag(m)] of a two-dimensional array: its main diagonal. *)
Definition np_diag (m : matrix) : list fl :=
  map (fun i => cell m i i) (seq 0 (Nat.min (nrows m) (ncols m))).

(** [m.sum(axis=1)]: one sum per row. *)
Definition sum_axis1 (m : matrix) : list fl := map fsum m.

(** [m.sum(axis=0)]: one sum per column. *)
Definition sum_axis0 (m : matrix) : list fl :=
  map (fun j => fsum (map (fun row => nth j row (Fin 0)) m)) (seq 0 (ncols m)).

(** Elementwise operation on one-dimensional arrays, with numpy's
    broadcasting: equal lengths, or one operand of length one. *)
Definition np_zip1 (op : fl -> fl -> fl) (a b : list fl) : exc (list fl) :=
  if Nat.eqb (List.length a) (List.length b) then Ok (map (fun p => op (fst p) (snd p)) (combine a b))
  else match a, b with
       | [x], _ => Ok (map (op x) b)
       | _, [y] => Ok (map (fun x => op x y) a)
       | _, _ => Raise ValueError
       end.

(** [a[i]] on a one-dimensional array. *)
Definition np_item (a : list fl) (i : nat) : exc fl :=
  match nth_error a i with
  | Some x => Ok x
  | None => Raise (OtherError "IndexError")
  end.

(** Position [i] of an axis of length [n] read from an operand whose axis has
    length [k]: the operand is repeated when [k] is one. *)
Definition bcast_index (k i : nat) : nat := if Nat.eqb k 1 then 0%nat else i.

(** [a += b] on two-dimensional arrays. The result keeps the shape of [a];
    [b] is broadcast to it when each of its axes has the length of the
    corresponding axis of [a] or length one, and the statement raises
    otherwise. *)
Definition np_iadd (a b : matrix) : exc matrix :=
  let ok k n := Nat.eqb k n || Nat.eqb k 1 in
  if ok (nrows b) (nrows a) && ok (ncols b) (ncols a) then
    Ok (map (fun i =>
               map (fun j => fadd (cell a i j)
                                  (cell b (bcast_index (nrows b) i)
                                          (bcast_index (ncols b) j)))
                   (seq 0 (ncols a)))
            (seq 0 (nrows a)))
  else Raise ValueError.

Definition matrix_of_Z (m : list (list Z)) : matrix := map (map fl_of_Z) m.

(** Sum of all the entries. *)
Definition total (m : matrix) : fl := fsum (map fsum m).

(** ** Collaborators

    Everything the two modules import from elsewhere: [utils], 
    [dataframe_processing], nltk, scikit-learn and pandas. *)

Inductive vectorizer_kind : Type := CountVectorizer | TfidfVectorizer.

(** A scikit-learn vectorizer object: its constructor arguments and, once
    fitted, its vocabulary (the terms in column order). An argument the
    constructor call does not pass is [None] here and takes the library's
    default. *)
Record Vectorizer : Type := mkVectorizer {
  vz_kind : vectorizer_kind;
  vz_input : pyval;
  vz_stop_words : list string;
  vz_min_df : pyval;
  vz_max_df : pyval;
  vz_ngram_range : option (pyval * pyval);
  vz_vocabulary : option (list string)
}.

Definition with_vocabulary (v : Vectorizer) (voc : list string) : Vectorizer :=
  mkVectorizer (vz_kind v) (vz_input v) (vz_stop_words v) (vz_min_df v)
               (vz_max_df v) (vz_ngram_range v) (Some voc).

Inductive nltk_model : Type :=
| SnowballStemmer_english
| PorterStemmer
| WordNetLemmatizer.

Record Collaborators : Type := mkCollaborators {
  (** [utils.get_stopwords()] *)
  get_stopwords : list string;
  (** [utils.import_data(bucket, filename)] *)
  import_data : pyval -> pyval -> exc pyval;
  (** [dataframe_processing.create_model_data(data, bucket, filename,
      num_cities)]; an argument the call leaves out is [None]. *)
  create_model_data : pyval -> option pyval -> option pyval -> pyval -> exc pyval;
  (** nltk: [SnowballStemmer("english").stem], [PorterStemmer().stem],
      [WordNetLemmatizer().lemmatize] *)
  snowball_stem : string -> string;
  porter_stem : string -> string;
  wordnet_lemmatize : string -> string;
  (** scikit-learn: the vocabulary a vectorizer learns from documents, and
      the feature matrix of a fitted vectorizer *)
  sk_fit_vocabulary : Vectorizer -> pyval -> exc (list string);
  sk_transform : Vectorizer -> pyval -> exc pyval;
  (** iteration over an object of a foreign class *)
  obj_iter : string -> list pyval -> exc (list pyval);
  (** pandas: [df["label"].as_matrix()] and [df.iloc[index]] *)
  frame_label : pyval -> exc pyval;
  frame_iloc : pyval -> pyval -> exc pyval;
  (** scikit-learn: [KFold(n_splits, shuffle=True)] and [kf.split(df)] *)
  KFold : pyval -> exc pyval;
  kf_split : pyval -> pyval -> exc (list (pyval * pyval));
  (** the classifier: [fit] gives the classifier as fitted *)
  clf_fit : pyval -> pyval -> pyval -> exc pyval;
  clf_predict : pyval -> pyval -> exc pyval;
  clf_score : pyval -> pyval -> pyval -> exc fl;
  (** scikit-learn: [confusion_matrix(y_true, y_pred)] *)
  confusion_matrix : pyval -> pyval -> exc (list (list Z))
}.

(** [for x in v] *)
Definition py_iter (E : Collaborators) (v : pyval) : exc (list pyval) :=
  match v with
  | PyList l | PyTuple l => Ok l
  | PyStr s => Ok (map PyStr (chars_of s))
  | PyObj cls fields => obj_iter E cls fields
  | _ => Raise TypeError
  end.

Definition is_str (s : string) (v : pyval) : bool :=
  match v with PyStr s' => String.eqb s s' | _ => false end.

(** [s in v] for a string [s] *)
Definition py_contains (E : Collaborators) (s : string) (v : pyval) : exc bool :=
  match v with
  | PyStr hay => Ok (substring_in s hay)
  | _ => exc_bind (py_iter E v) (fun l => Ok (existsb (is_str s) l))
  end.

(** [a, b, c = v] *)
Definition unpack3 (E : Collaborators) (v : pyval) : exc (pyval * pyval * pyval) :=
  exc_bind (py_iter E v) (fun l =>
    match l with
    | [a; b; c] => Ok (a, b, c)
    | _ => Raise ValueError
    end).

(** [[f(x) for x in l]] where [f] may raise *)
Fixpoint map_exc {A B} (f : A -> exc B) (l : list A) : exc (list B) :=
  match l with
  | [] => Ok []
  | x :: rest =>
      exc_bind (f x) (fun y => exc_bind (map_exc f rest) (fun ys => Ok (y :: ys)))
  end.

(** [model.stem(word)] and [model.lemmatize(word)] *)
Definition model_stem (E : Collaborators) (m : nltk_model) (word : string) : exc string :=
  match m with
  | SnowballStemmer_english => Ok (snowball_stem E word)
  | PorterStemmer => Ok (porter_stem E word)
  | WordNetLemmatizer => Raise (AttributeError "stem")
  end.

Definition model_lemmatize (E : Collaborators) (m : nltk_model) (word : string) : exc string :=
  match m with
  | WordNetLemmatizer => Ok (wordnet_lemmatize E word)
  | _ => Raise (AttributeError "lemmatize")
  end.

(** [vectorizer.fit(docs)] returns the fitted vectorizer;
    [vectorizer.transform(docs)] raises on a vectorizer without vocabulary. *)
Definition vectorizer_fit (E : Collaborators) (v : Vectorizer) (docs : pyval) : exc Vectorizer :=
  exc_bind (sk_fit_vocabulary E v docs) (fun voc => Ok (with_vocabulary v voc)).

Definition vectorizer_transform (E : Collaborators) (v : Vectorizer) (docs : pyval) : exc pyval :=
  match vz_vocabulary v with
  | None => Raise NotFittedError
  | Some _ => sk_transform E v docs
  end.

(** The list comprehensions of [_do_stem_lem]: every document is split at
    single spaces, the words outside [stop_words] are stemmed (or lemmatized)
    and joined again. *)
Definition stem_lem_documents (E : Collaborators) (stop_words : list string)
    (documents : pyval) (model : nltk_model) (stemmer : bool) : exc pyval :=
  let apply := if stemmer then model_stem E model else model_lemmatize E model in
  texts <~ py_iter E documents ;;
  docs <~ map_exc (fun text =>
                     match text with
                     | PyStr s =>
                         words <~ map_exc apply
                                    (filter (fun word => negb (in_set word stop_words))
                                            (split_space s)) ;;
                         Ok (PyStr (join_space words))
                     | _ => Raise (AttributeError "split")
                     end) texts ;;
  Ok (PyList docs).

(** ** [NLPProcessing] (nlp_processing.py) *)

Module NLPProcessing.

Record t : Type := mk {
  model : pyval;
  stemlem : pyval;
  min_df : pyval;
  max_df : pyval;
  num_cities : pyval;
  vectorize : option Vectorizer;
  n_grams : pyval;
  use_stopwords : bool;
  done_stopwords : bool
}.

Definition set_vectorize (v : option Vectorizer) (self : t) : t :=
  mk (model self) (stemlem self) (min_df self) (max_df self) (num_cities self)
     v (n_grams self) (use_stopwords self) (done_stopwords self).

Definition set_done_stopwords (b : bool) (self : t) : t :=
  mk (model self) (stemlem self) (min_df self) (max_df self) (num_cities self)
     (vectorize self) (n_grams self) (use_stopwords self) b.

(** The constructor stores its arguments. *)
Definition __init__ (stemlem min_df max_df num_cities n_grams : pyval)
    (use_stopwords : bool) : exc t :=
  Ok (mk PyNone stemlem min_df max_df num_cities None n_grams use_stopwords false).

Definition must_fit_message : string :=
  "Must fit a processing pipeline before calling" ++
  "                                 the transform method".

Section Methods.

Variable E : Collaborators.

Local Open Scope method_scope.

Definition _do_stem_lem (documents : pyval) (model : nltk_model) (stemmer : bool)
  : M t pyval :=
  self <- get ;;
  let stop_words :=
    if use_stopwords self && negb (done_stopwords self)
    then get_stopwords E else [] in
  call (stem_lem_documents E stop_words documents model stemmer).

Definition snowball_stemmatizer (documents : pyval) : M t pyval :=
  _do_stem_lem documents SnowballStemmer_english true.

Definition porter_stemmatizer (documents : pyval) : M t pyval :=
  _do_stem_lem documents PorterStemmer true.

Definition wordnet_lemmatizer (documents : pyval) : M t pyval :=
  _do_stem_lem documents WordNetLemmatizer false.

Definition _stemlem (text_array : pyval) : M t pyval :=
  modify (set_done_stopwords true) ;;
  self <- get ;;
  has_wordnet <- call (py_contains E "wordnet" (stemlem self)) ;;
  text_array <- (if has_wordnet : bool then wordnet_lemmatizer text_array
                 else ret text_array) ;;
  has_snowball <- call (py_contains E "snowball" (stemlem self)) ;;
  text_array <- (if has_snowball : bool then snowball_stemmatizer text_array
                 else
                   has_porter <- call (py_contains E "porter" (stemlem self)) ;;
                   if has_porter : bool then porter_stemmatizer text_array
                   else ret text_array) ;;
  text_array <- (if eq_empty_str (stemlem self)
                 then call (exc_bind (py_iter E text_array) (fun l => Ok (PyList l)))
                 else ret text_array) ;;
  modify (set_done_stopwords false) ;;
  ret text_array.

(** [self.vectorize.fit(training_docs)] *)
Definition vectorize_fit (training_docs : pyval) : M t unit :=
  fun self =>
    match vectorize self with
    | None => (Raise (AttributeError "fit"), self)
    | Some v =>
        match vectorizer_fit E v training_docs with
        | Ok v' => (Ok tt, set_vectorize (Some v') self)
        | Raise e => (Raise e, self)
        end
    end.

(** [self.vectorize.transform(doc_array)] *)
Definition vectorize_transform (doc_array : pyval) : M t pyval :=
  fun self =>
    match vectorize self with
    | None => (Raise (AttributeError "transform"), self)
    | Some v => (vectorizer_transform E v doc_array, self)
    end.

Definition count_vectorize (training_docs : pyval) : M t unit :=
  self <- get ;;
  let stop_words :=
    if use_stopwords self && eq_empty_str (stemlem self)
    then get_stopwords E else [] in
  modify (set_vectorize
            (Some (mkVectorizer CountVectorizer training_docs stop_words
                                (min_df self) (max_df self) None None))) ;;
  vectorize_fit training_docs.

Definition tfidf_vectorize (training_docs : pyval) : M t unit :=
  self <- get ;;
  let stop_words :=
    if use_stopwords self && eq_empty_str (stemlem self)
    then get_stopwords E else [] in
  modify (set_vectorize
            (Some (mkVectorizer TfidfVectorizer training_docs stop_words
                                (min_df self) (max_df self)
                                (Some (n_grams self, n_grams self)) None))) ;;
  vectorize_fit training_docs.

Definition fit (data bucket filename : pyval) : M t unit :=
  self <- get ;;
  '(fit_array, _, _) <-
     call (exc_bind (create_model_data E data (Some bucket) (Some filename)
                                       (num_cities self))
                    (unpack3 E)) ;;
  fit_array <- _stemlem fit_array ;;
  tfidf_vectorize fit_array.

Definition transform (data bucket filename : pyval) : M t pyval :=
  self <- get ;;
  if match vectorize self with None => true | Some _ => false end
  then raise (AttributeError must_fit_message)
  else
    '(_, doc_array, y) <-
       call (exc_bind (create_model_data E data (Some bucket) (Some filename)
                                         (num_cities self))
                      (unpack3 E)) ;;
    doc_array <- _stemlem doc_array ;;
    x <- vectorize_transform doc_array ;;
    ret (PyTuple [x; y]).

Definition fit_transform (data bucket filename : pyval) : M t pyval :=
  self <- get ;;
  '(fit_array, doc_array, y) <-
     call (exc_bind (create_model_data E data (Some bucket) (Some filename)
                                       (num_cities self))
                    (unpack3 E)) ;;
  fit_array <- _stemlem fit_array ;;
  tfidf_vectorize fit_array ;;
  doc_array <- _stemlem doc_array ;;
  x <- vectorize_transform doc_array ;;
  ret (PyTuple [x; y]).

End Methods.

End NLPProcessing.

(** ** [JHPModel] (build_model.py) *)

Module JHPModel.

Record t : Type := mk {
  processing : NLPProcessing.t;
  model : pyval;
  classes : pyval
}.

Definition set_processing (p : NLPProcessing.t) (self : t) : t :=
  mk p (model self) (classes self).

Definition set_model (m : pyval) (self : t) : t :=
  mk (processing self) m (classes self).

Definition __init__ (model stemlem min_df max_df num_cities n_grams : pyval)
    (use_stopwords : bool) : exc t :=
  p <~ NLPProcessing.__init__ stemlem min_df max_df num_cities n_grams
                              use_stopwords ;;
  Ok (mk p model num_cities).

(** One printed line of [_get_scores]. *)
Record score_line : Type := mkLine {
  line_class : nat;
  line_precision : fl;
  line_recall : fl;
  line_F1 : fl
}.

(** [_get_scores(confusion_matrix)]; the value is the list of printed lines. *)
Definition _get_scores (confusion_matrix : matrix) : exc (list score_line) :=
  let d := np_diag confusion_matrix in
  precision <~ np_zip1 fdiv d (sum_axis1 confusion_matrix) ;;
  recall <~ np_zip1 fdiv d (sum_axis0 confusion_matrix) ;;
  s <~ np_zip1 fadd (map (fdiv (Fin 1)) precision) (map (fdiv (Fin 1)) recall) ;;
  let F1 := map (fdiv (Fin 2)) s in
  map_exc (fun i =>
             p <~ np_item precision i ;;
             r <~ np_item recall i ;;
             f <~ np_item F1 i ;;
             Ok (mkLine i p r f))
          (seq 0 (nrows confusion_matrix)).

(** What [cross_validate] prints. *)
Record report : Type := mkReport {
  accuracy : fl;
  confusion : matrix;
  lines : list score_line
}.

(** [np.array(scores).mean()] *)
Definition np_mean (scores : list fl) : fl :=
  fdiv (fsum scores) (fl_of_Z (Z.of_nat (List.length scores))).

Section Methods.

Variable E : Collaborators.

Local Open Scope method_scope.

(** A method call on [self.processing]. *)
Definition on_processing {A} (m : M NLPProcessing.t A) : M t A :=
  fun self =>
    let (r, p) := m (processing self) in (r, set_processing p self).

(** [df["label"].as_matrix()] *)
Definition _get_labels (df : pyval) : exc pyval :=
  match df with
  | PyObj _ _ => frame_label E df
  | _ => Raise TypeError
  end.

(** [self.model.fit(features, labels)] *)
Definition model_fit (features labels : pyval) : M t unit :=
  fun self =>
    match clf_fit E (model self) features labels with
    | Ok m => (Ok tt, set_model m self)
    | Raise e => (Raise e, self)
    end.

Definition fit (training bucket filename : pyval) : M t unit :=
  df <- (if is_None training then call (import_data E bucket filename)
         else ret training) ;;
  self <- get ;;
  df <- call (create_model_data E df None None (classes self)) ;;
  features <- on_processing (NLPProcessing.fit_transform E df PyNone PyNone) ;;
  labels <- call (_get_labels df) ;;
  model_fit features labels.

Definition predict (testing : pyval) : M t pyval :=
  let testing := if isinstance_str testing then PyList [testing] else testing in
  testing <- on_processing (NLPProcessing.transform E testing PyNone PyNone) ;;
  self <- get ;;
  call (clf_predict E (model self) testing).

(** The body of the loop over the folds of [cross_validate]. *)
Definition fold_body (df : pyval) (scores : list fl) (confusion : matrix)
    (train_index test_index : pyval) : M t (list fl * matrix) :=
  training <- call (frame_iloc E df train_index) ;;
  fit training PyNone PyNone ;;
  self <- get ;;
  testing <- call (frame_iloc E df test_index) ;;
  df_test <- call (create_model_data E testing None None (classes self)) ;;
  X_test <- on_processing (NLPProcessing.transform E df_test PyNone PyNone) ;;
  y_test <- call (_get_labels df_test) ;;
  self <- get ;;
  score <- call (clf_score E (model self) X_test y_test) ;;
  predicted <- call (clf_predict E (model self) X_test) ;;
  fold_confusion <- call (confusion_matrix E y_test predicted) ;;
  confusion <- call (np_iadd confusion (matrix_of_Z fold_confusion)) ;;
  ret ((scores ++ [score])%list, confusion).

Fixpoint fold_loop (df : pyval) (folds : list (pyval * pyval))
    (scores : list fl) (confusion : matrix) : M t (list fl * matrix) :=
  match folds with
  | [] => ret (scores, confusion)
  | (train_index, test_index) :: rest =>
      '(scores, confusion) <- fold_body df scores confusion train_index test_index ;;
      fold_loop df rest scores confusion
  end.

Definition cross_validate (data bucket filename n_splits : pyval) : M t report :=
  kf <- call (KFold E n_splits) ;;
  df <- (if is_None data then call (import_data E bucket filename)
         else ret data) ;;
  self <- get ;;
  confusion <- call (np_zeros (classes self) (classes self)) ;;
  folds <- call (kf_split E kf df) ;;
  '(scores, confusion) <- fold_loop df folds [] confusion ;;
  lines <- call (_get_scores confusion) ;;
  ret (mkReport (np_mean scores) confusion lines).

End Methods.

End JHPModel.

(** ** Reference collaborators

    Small executable stand-ins for the libraries, used to run the two classes
    on concrete inputs. A data frame is [PyObj "DataFrame" rows] with rows
    [(text, label)]; [create_model_data] keeps the rows whose label is below
    the class count and gives an object that unpacks into
    [(fit_array, doc_array, y)] and has [y] as its label column. *)

Module Reference.

Definition stop_words : list string := ["the"; "a"; "an"; "and"; "of"; "in"].

Definition strip_suffix (suffix word : string) : string :=
  let n := (String.length word - String.length suffix)%nat in
  if Nat.ltb (String.length suffix) (String.length word)
     && String.eqb (substring n (String.length suffix) word) suffix
  then substring 0 n word else word.

Definition porter (word : string) : string := strip_suffix "s" word.
Definition snowball (word : string) : string :=
  strip_suffix "ing" (strip_suffix "s" word).
Definition lemmatize (word : string) : string :=
  if String.eqb word "cities" then "city" else word.

Definition row_text (row : pyval) : pyval :=
  match row with PyTuple (text :: _) => text | _ => PyNone end.
Definition row_label (row : pyval) : pyval :=
  match row with PyTuple [_; label] => label | _ => PyNone end.
Definition label_below (n : pyval) (row : pyval) : bool :=
  match n, row_label row with
  | PyInt n, PyInt l => (0 <=? l) && (l <? n)
  | _, _ => false
  end.

Definition model_data (data : pyval) (_ _ : option pyval) (num_cities : pyval)
  : exc pyval :=
  match data with
  | PyObj "DataFrame" rows =>
      let kept := filter (label_below num_cities) rows in
      Ok (PyObj "ModelData" [PyList (map row_text kept); PyList (map row_text kept);
                             PyList (map row_label kept)])
  | PyObj "ModelData" _ => Ok data
  | PyList docs => Ok (PyObj "ModelData" [data; data; PyList []])
  | _ => Raise TypeError
  end.

Definition iter (cls : string) (fields : list pyval) : exc (list pyval) :=
  match cls, fields with
  | "ModelData", [a; b; c] => Ok [a; b; c]
  | _, _ => Raise TypeError
  end.

Definition label_column (df : pyval) : exc pyval :=
  match df with
  | PyObj "ModelData" [_; _; y] => Ok y
  | PyObj "DataFrame" rows => Ok (PyList (map row_label rows))
  | _ => Raise KeyError
  end.

Definition iloc (df index : pyval) : exc pyval :=
  match df, index with
  | PyObj "DataFrame" rows, PyList positions =>
      rows' <~ map_exc (fun p => match p with
                                 | PyInt i =>
                                     match nth_error rows (Z.to_nat i) with
                                     | Some row => Ok row
                                     | None => Raise (OtherError "IndexError")
                                     end
                                 | _ => Raise TypeError
                                 end) positions ;;
      Ok (PyObj "DataFrame" rows')
  | _, _ => Raise TypeError
  end.

(** Words of all the documents, in order. *)
Definition doc_words (doc : pyval) : list string :=
  match doc with
  | PyStr s => filter (fun w => negb (String.eqb w "")) (split_space s)
  | _ => []
  end.

Fixpoint dedup (seen : list string) (words : list string) : list string :=
  match words with
  | [] => []
  | w :: rest =>
      if in_set w seen then dedup seen rest else w :: dedup (w :: seen) rest
  end.

(** A vocabulary of single words: every word of the documents that is not a
    stop word of the vectorizer. *)
Definition fit_vocabulary (v : Vectorizer) (docs : pyval) : exc (list string) :=
  match docs with
  | PyList l =>
      let words := filter (fun w => negb (in_set w (vz_stop_words v)))
                          (flat_map doc_words l) in
      match dedup [] words with
      | [] => Raise ValueError
      | voc => Ok voc
      end
  | _ => Raise TypeError
  end.

Definition count_in (term : string) (words : list string) : Z :=
  Z.of_nat (List.length (filter (String.eqb term) words)).

(** One row of term counts per document. *)
Definition features (v : Vectorizer) (docs : pyval) : exc pyval :=
  match docs, vz_vocabulary v with
  | PyList l, Some voc =>
      Ok (PyList (map (fun doc =>
                         PyList (map (fun term => PyInt (count_in term (doc_words doc)))
                                     voc)) l))
  | _, _ => Raise TypeError
  end.

(** Two classifiers. ["Echo"] answers [predict] with the argument it was
    given. ["Constant"] learns the first training label and predicts it for
    every row; it takes the rows from a feature matrix or from the first
    component of a pair. *)
Definition rows_of (X : pyval) : exc (list pyval) :=
  match X with
  | PyList rows => Ok rows
  | PyTuple [PyList rows; _] => Ok rows
  | _ => Raise ValueError
  end.

Definition classifier_fit (clf X y : pyval) : exc pyval :=
  match clf with
  | PyObj "Echo" _ => Ok clf
  | PyObj "Constant" _ =>
      _ <~ rows_of X ;;
      match y with
      | PyList (label :: _) => Ok (PyObj "Constant" [label])
      | _ => Raise ValueError
      end
  | _ => Raise (AttributeError "fit")
  end.

Definition classifier_predict (clf X : pyval) : exc pyval :=
  match clf with
  | PyObj "Echo" _ => Ok X
  | PyObj "Constant" [label] =>
      rows <~ rows_of X ;;
      Ok (PyList (map (fun _ => label) rows))
  | PyObj "Constant" _ => Raise NotFittedError
  | _ => Raise (AttributeError "predict")
  end.

Definition label_eqb (a b : pyval) : bool :=
  match a, b with PyInt x, PyInt y => Z.eqb x y | _, _ => false end.

Definition classifier_score (clf X y : pyval) : exc fl :=
  predicted <~ classifier_predict clf X ;;
  match predicted, y with
  | PyList p, PyList t =>
      Ok (fdiv (fl_of_Z (Z.of_nat (List.length
                 (filter (fun pt => label_eqb (fst pt) (snd pt)) (combine p t)))))
               (fl_of_Z (Z.of_nat (List.length t))))
  | _, _ => Raise ValueError
  end.

(** scikit-learn's [confusion_matrix(y_true, y_pred)] without [labels=]: the
    classes are the values that occur in either argument, in sorted order;
    cell [i][j] counts the records of true class [i] predicted as class [j]. *)
Definition int_labels (y : pyval) : exc (list Z) :=
  match y with
  | PyList l => map_exc (fun v => match v with PyInt z => Ok z | _ => Raise ValueError end) l
  | _ => Raise TypeError
  end.

Fixpoint insert_sorted (z : Z) (l : list Z) : list Z :=
  match l with
  | [] => [z]
  | x :: rest =>
      if z <? x then z :: l
      else if z =? x then l
      else x :: insert_sorted z rest
  end.

Definition unique_labels (l : list Z) : list Z := fold_right insert_sorted [] l.

Definition count_pairs (t p : Z) (pairs : list (Z * Z)) : Z :=
  Z.of_nat (List.length
              (filter (fun tp => (fst tp =? t) && (snd tp =? p)) pairs)).

Definition confusion_of (y_true y_pred : list Z) : list (list Z) :=
  let classes := unique_labels (y_true ++ y_pred)%list in
  map (fun t => map (fun p => count_pairs t p (combine y_true y_pred)) classes)
      classes.

Definition sk_confusion_matrix (y_true y_pred : pyval) : exc (list (list Z)) :=
  t <~ int_labels y_true ;;
  p <~ int_labels y_pred ;;
  if Nat.eqb (List.length t) (List.length p) then Ok (confusion_of t p)
  else Raise ValueError.

(** The collaborators, for a given outcome of the shuffled split. *)
Definition env (folds : list (pyval * pyval)) : Collaborators :=
  {| get_stopwords := stop_words;
     import_data := fun _ _ => Raise (OtherError "FileNotFoundError");
     create_model_data := model_data;
     snowball_stem := snowball;
     porter_stem := porter;
     wordnet_lemmatize := lemmatize;
     sk_fit_vocabulary := fit_vocabulary;
     sk_transform := features;
     obj_iter := iter;
     frame_label := label_column;
     frame_iloc := iloc;
     KFold := fun n => match n with
                       | PyInt k => if k <? 2 then Raise ValueError
                                    else Ok (PyObj "KFold" [n])
                       | _ => Raise TypeError
                       end;
     kf_split := fun _ _ => Ok folds;
     clf_fit := classifier_fit;
     clf_predict := classifier_predict;
     clf_score := classifier_score;
     confusion_matrix := sk_confusion_matrix |}.

Definition frame (rows : list (string * Z)) : pyval :=
  PyObj "DataFrame" (map (fun r => PyTuple [PyStr (fst r); PyInt (snd r)]) rows).

Definition indices (l : list Z) : pyval := PyList (map PyInt l).

(** The three documents of the specification's scenario, with their labels. *)
Definition three_documents : pyval :=
  frame [("new york city jobs", 0); ("new york city jobs", 0);
         ("los angeles jobs", 1)].

(** Three job adverts that use a stop word. *)
Definition adverts : pyval :=
  frame [("the new york city jobs", 0); ("new york city jobs", 0);
         ("the los angeles jobs", 1)].

(** Four records and an outcome of a two-fold split: records 0 and 1 are held
    out first, then records 2 and 3. *)
Definition four_records : pyval :=
  frame [("new york city jobs", 0); ("york jobs", 0); ("new york", 0);
         ("los angeles jobs", 1)].

Definition two_folds : list (pyval * pyval) :=
  [(indices [2; 3], indices [0; 1]); (indices [0; 1], indices [2; 3])].

End Reference.

(** * Definitions used by the statements *)

(** ** Frames: what a method leaves untouched *)

(** [keeps proj m]: running [m], to a result or to an exception, leaves the
    projection [proj] of the receiver as it was. *)
Definition keeps {S C A : Type} (proj : S -> C) (m : M S A) : Prop :=
  forall s, proj (snd (m s)) = proj s.

Module NLPFacts.

Import NLPProcessing.

(** The configuration of a preprocessor: the fields its constructor takes. *)
Definition config (self : t) : pyval * pyval * pyval * pyval * pyval * bool :=
  (stemlem self, min_df self, max_df self, num_cities self, n_grams self,
   use_stopwords self).

(** Everything but the [done_stopwords] flag. *)
Definition but_flag (self : t) :=
  (config self, NLPProcessing.model self, vectorize self).

Definition set_n_grams (k : pyval) (self : t) : t :=
  mk (NLPProcessing.model self) (stemlem self) (min_df self) (max_df self)
     (num_cities self) (vectorize self) k (use_stopwords self)
     (done_stopwords self).

(** The preprocessor holds no fitted vocabulary: it has no vectorizer, or a
    vectorizer whose fit did not complete. *)
Definition no_vocabulary (self : t) : Prop :=
  match vectorize self with
  | None => True
  | Some v => vz_vocabulary v = None
  end.

(** The states of a preprocessor on which no fit has succeeded: fresh from
    the constructor, after a [fit] that raised, after a [fit_transform] that
    raised, and after any [transform]. *)
Inductive never_fitted (E : Collaborators) : t -> Prop :=
| fresh : forall stemlem min_df max_df num_cities n_grams use_stopwords self,
    __init__ stemlem min_df max_df num_cities n_grams use_stopwords = Ok self ->
    never_fitted E self
| fit_raised : forall self data bucket filename e self',
    never_fitted E self ->
    fit E data bucket filename self = (Raise e, self') ->
    never_fitted E self'
| fit_transform_raised : forall self data bucket filename e self',
    never_fitted E self ->
    fit_transform E data bucket filename self = (Raise e, self') ->
    never_fitted E self'
| transform_called : forall self data bucket filename r self',
    never_fitted E self ->
    transform E data bucket filename self = (r, self') ->
    never_fitted E self'.

(** The stop-word set a vectorizer of this preprocessor is built with. *)
Definition vectorizer_stop_words (E : Collaborators) (self : t) : list string :=
  if use_stopwords self && eq_empty_str (stemlem self)
  then get_stopwords E else [].

(** From the specification: the stages of the stem/lemmatize step in the
    order they run. Lemmatization comes first when it is selected; then at
    most one stemmer, snowball when both are named. *)
Definition stemlem_stages (lemmatization snowball porter : bool)
  : list nltk_model :=
  ((if lemmatization then [WordNetLemmatizer] else []) ++
   (if snowball then [SnowballStemmer_english]
    else if porter then [PorterStemmer] else []))%list.

Definition is_stemmer (m : nltk_model) : bool :=
  match m with WordNetLemmatizer => false | _ => true end.

(** The stages applied one after the other to the documents, none of them
    removing a stop word. *)
Fixpoint run_stages (E : Collaborators) (stages : list nltk_model)
    (documents : pyval) : exc pyval :=
  match stages with
  | [] => Ok documents
  | m :: rest =>
      docs <~ stem_lem_documents E [] documents m (is_stemmer m) ;;
      run_stages E rest docs
  end.

End NLPFacts.

Module JHPFacts.

Import JHPModel.

(** An [n] by [n] array. *)
Definition square (n : nat) (m : matrix) : Prop :=
  nrows m = n /\ Forall (fun row => List.length row = n) m.




(** Every entry is a finite value. *)
Definition finite (m : matrix) : Prop :=
  Forall (Forall (fun x => is_finite x = true)) m.

(** The rational a finite float stands for, and exact sums of them. *)
Definition qval (x : fl) : Q := match x with Fin q => q | _ => 0%Q end.
Definition Qsum (l : list Q) : Q := fold_right Qplus 0%Q l.
Definition qsum (l : list fl) : Q := Qsum (map qval l).
Definition qtotal (m : matrix) : Q := Qsum (map qsum m).

(** [confusion += m] for each matrix of [ms] in turn. *)
Fixpoint add_all (confusion : matrix) (ms : list matrix) : exc matrix :=
  match ms with
  | [] => Ok confusion
  | m :: rest => c <~ np_iadd confusion m ;; add_all c rest
  end.

(** The elementwise sum of two [n] by [n] arrays. *)
Definition elementwise_sum (n : nat) (a b : matrix) : matrix :=
  map (fun i => map (fun j => fadd (cell a i j) (cell b i j)) (seq 0 n))
      (seq 0 n).

(** The line [_get_scores] prints for class [i] of a square array, in closed
    form: the diagonal entry over the sum of row [i], over the sum of column
    [i], and the F1 expression of the two. *)
Definition score_line_of (m : matrix) (i : nat) : score_line :=
  let p := fdiv (cell m i i) (fsum (nth i m [])) in
  let r := fdiv (cell m i i) (fsum (map (fun row => nth i row (Fin 0)) m)) in
  mkLine i p r (fdiv (Fin 2) (fadd (fdiv (Fin 1) p) (fdiv (Fin 1) r))).

(** The configuration of a pipeline: that of its preprocessor and the class
    count. *)
Definition config (self : t) :=
  (NLPFacts.config (processing self), classes self).

(** The states a pipeline goes through after its construction: any sequence
    of calls of its own methods and of the methods of its preprocessor,
    whether they return or raise. *)
Inductive after_construction (E : Collaborators)
    (stemlem min_df max_df num_cities n_grams : pyval) (use_stopwords : bool)
  : t -> Prop :=
| constructed : forall model self,
    __init__ model stemlem min_df max_df num_cities n_grams use_stopwords = Ok self ->
    after_construction E stemlem min_df max_df num_cities n_grams use_stopwords self
| after_fit : forall self training bucket filename,
    after_construction E stemlem min_df max_df num_cities n_grams use_stopwords self ->
    after_construction E stemlem min_df max_df num_cities n_grams use_stopwords
      (snd (fit E training bucket filename self))
| after_predict : forall self testing,
    after_construction E stemlem min_df max_df num_cities n_grams use_stopwords self ->
    after_construction E stemlem min_df max_df num_cities n_grams use_stopwords
      (snd (predict E testing self))
| after_cross_validate : forall self data bucket filename n_splits,
    after_construction E stemlem min_df max_df num_cities n_grams use_stopwords self ->
    after_construction E stemlem min_df max_df num_cities n_grams use_stopwords
      (snd (cross_validate E data bucket filename n_splits self))
| after_processing_fit : forall self data bucket filename,
    after_construction E stemlem min_df max_df num_cities n_grams use_stopwords self ->
    after_construction E stemlem min_df max_df num_cities n_grams use_stopwords
      (snd (on_processing (NLPProcessing.fit E data bucket filename) self))
| after_processing_transform : forall self data bucket filename,
    after_construction E stemlem min_df max_df num_cities n_grams use_stopwords self ->
    after_construction E stemlem min_df max_df num_cities n_grams use_stopwords
      (snd (on_processing (NLPProcessing.transform E data bucket filename) self))
| after_processing_fit_transform : forall self data bucket filename,
    after_construction E stemlem min_df max_df num_cities n_grams use_stopwords self ->
    after_construction E stemlem min_df max_df num_cities n_grams use_stopwords
      (snd (on_processing (NLPProcessing.fit_transform E data bucket filename) self)).

End JHPFacts.


(** * Further definitions *)

Module NLPSpec.

Import NLPProcessing.

(** The value [_stemlem] computes, as a function of the mode and of the
    documents: the membership tests and the stages in the order of the
    method, every stage with an empty stop-word set. *)
Definition stemlem_result (E : Collaborators) (mode text_array : pyval)
  : exc pyval :=
  has_wordnet <~ py_contains E "wordnet" mode ;;
  lemmatized <~ (if has_wordnet : bool
                 then stem_lem_documents E [] text_array WordNetLemmatizer false
                 else Ok text_array) ;;
  has_snowball <~ py_contains E "snowball" mode ;;
  stemmed <~ (if has_snowball : bool
              then stem_lem_documents E [] lemmatized SnowballStemmer_english true
              else
                has_porter <~ py_contains E "porter" mode ;;
                if has_porter : bool
                then stem_lem_documents E [] lemmatized PorterStemmer true
                else Ok lemmatized) ;;
  if eq_empty_str mode
  then l <~ py_iter E stemmed ;; Ok (PyList l)
  else Ok stemmed.

(** The arrays [create_model_data] gives a method of the preprocessor. *)
Definition extract (E : Collaborators) (data bucket filename : pyval)
    (self : t) : exc (pyval * pyval * pyval) :=
  exc_bind (create_model_data E data (Some bucket) (Some filename)
                              (num_cities self))
           (unpack3 E).

(** The TF-IDF vectorizer [tfidf_vectorize] builds, before it is fitted. *)
Definition new_tfidf (E : Collaborators) (training_docs : pyval) (self : t)
  : Vectorizer :=
  mkVectorizer TfidfVectorizer training_docs (NLPFacts.vectorizer_stop_words E self)
               (min_df self) (max_df self) (Some (n_grams self, n_grams self))
               None.

(** Model data whose fit array is a list of documents and whose document
    array is the number 7. *)
Definition broken_documents : pyval :=
  PyObj "ModelData" [PyList [PyStr "jobs"]; PyInt 7; PyList []].

(** A preprocessor in the mode without stemming, with its vectorizer. *)
Definition plain (vectorize : option Vectorizer) : t :=
  mk PyNone (PyStr "") (PyInt 1) (PyFloat (Fin 1)) (PyInt 2) vectorize
     (PyInt 1) true false.

(** [d'] iterates to as many items as [d]. *)
Definition same_count (E : Collaborators) (d d' : pyval) : Prop :=
  forall l, py_iter E d = Ok l ->
  exists l', py_iter E d' = Ok l' /\ List.length l' = List.length l.

End NLPSpec.

Module JHPSpec.

(** Four records with both classes in each half, and the two-fold split that
    holds out the first half and then the second. *)
Definition balanced_records : pyval :=
  Reference.frame [("new york city jobs", 0); ("los angeles jobs", 1);
                   ("york jobs", 0); ("angeles jobs", 1)].

(** A pipeline as its constructor leaves it, for a classifier of the
    reference collaborators and a class count. *)
Definition fresh_pipeline (classifier : string) (classes : Z) : JHPModel.t :=
  JHPModel.mk
    (NLPProcessing.mk PyNone (PyStr "") (PyInt 1) (PyFloat (Fin 1))
                      (PyInt classes) None (PyInt 1) true false)
    (PyObj classifier []) (PyInt classes).

(** One pass of the loop of [cross_validate] that went through, from the
    pipeline [self] to the pipeline [self']: the pipeline is fitted on the
    training rows; the held-out rows are made into model data and
    transformed; the classifier as fitted in this pass scores them and
    predicts them; [cm] is the confusion matrix of their labels and the
    predictions. *)
Definition fold_outcome (E : Collaborators) (df train_index test_index : pyval)
    (self : JHPModel.t) (score : fl) (cm : list (list Z)) (self' : JHPModel.t)
  : Prop :=
  exists training fitted testing df_test X_test y_test predicted,
    frame_iloc E df train_index = Ok training /\
    JHPModel.fit E training PyNone PyNone self = (Ok tt, fitted) /\
    frame_iloc E df test_index = Ok testing /\
    create_model_data E testing None None (JHPModel.classes fitted)
      = Ok df_test /\
    JHPModel.on_processing
      (NLPProcessing.transform E df_test PyNone PyNone) fitted
      = (Ok X_test, self') /\
    JHPModel._get_labels E df_test = Ok y_test /\
    clf_score E (JHPModel.model self') X_test y_test = Ok score /\
    clf_predict E (JHPModel.model self') X_test = Ok predicted /\
    confusion_matrix E y_test predicted = Ok cm.

(** The passes over the folds in order, each starting from the pipeline the
    previous one left, with the score and the confusion matrix of each. *)
Inductive folds_run (E : Collaborators) (df : pyval)
  : list (pyval * pyval) -> JHPModel.t -> list fl -> list (list (list Z)) ->
    JHPModel.t -> Prop :=
| no_fold : forall self, folds_run E df [] self [] [] self
| one_more_fold : forall train_index test_index rest self score cm mid
                         scores cms self',
    fold_outcome E df train_index test_index self score cm mid ->
    folds_run E df rest mid scores cms self' ->
    folds_run E df ((train_index, test_index) :: rest) self
              (score :: scores) (cm :: cms) self'.

(** The data [fit] and [cross_validate] work on: the argument, or the
    imported file when the argument is [None]. *)
Definition data_or_import (E : Collaborators) (data bucket filename : pyval)
  : exc pyval :=
  if is_None data then import_data E bucket filename else Ok data.

(** An array of [r] rows and [c] columns. *)
Definition rectangular (r c : nat) (m : matrix) : Prop :=
  nrows m = r /\ Forall (fun row => List.length row = c) m.

(** The transpose of an [n] by [n] array. *)
Definition transpose (n : nat) (m : matrix) : matrix :=
  map (fun j => map (fun i => cell m i j) (seq 0 n)) (seq 0 n).

(** A score line with precision and recall exchanged. *)
Definition swap_line (l : JHPModel.score_line) : JHPModel.score_line :=
  JHPModel.mkLine (JHPModel.line_class l) (JHPModel.line_recall l)
                  (JHPModel.line_precision l) (JHPModel.line_F1 l).

End JHPSpec.

(** ** [JHPModel.show_informative_features] (build_model.py)

    The importance scores of the classifier are finite floats, here
    rationals; reading [feature_importances_] off the classifier is a
    parameter of the method. *)

Module JHPFeatures.

Import JHPModel.

(** A feature name with its importance score, the score first. *)
Definition scored : Type := (Q * string)%type.

(** [a < b] on tuples of a score and a name: by score, then by name. *)
Definition tuple_ltb (a b : scored) : bool :=
  match Qcompare (fst a) (fst b) with
  | Lt => true
  | Gt => false
  | Eq => String.ltb (snd a) (snd b)
  end.

(** [sorted(l)]: ascending, equal items in their order of arrival. *)
Fixpoint insert (x : scored) (l : list scored) : list scored :=
  match l with
  | [] => [x]
  | y :: rest => if tuple_ltb y x then y :: insert x rest else x :: l
  end.

Definition sorted (l : list scored) : list scored := fold_right insert [] l.

(** [l[:stop]] *)
Definition slice_to {A} (l : list A) (stop : Z) : list A :=
  let len := Z.of_nat (List.length l) in
  let stop := if stop <? 0 then Z.max (stop + len) 0 else Z.min stop len in
  firstn (Z.to_nat stop) l.

(** [l[:stop:-1]]: from the last item down to the one after index [stop]. *)
Definition slice_rev_to {A} (l : list A) (stop : Z) : list A :=
  let len := Z.of_nat (List.length l) in
  let stop := if stop <? 0 then Z.max (stop + len) (-1)
              else Z.min stop (len - 1) in
  rev (skipn (Z.to_nat (stop + 1)) l).

(** [vectorize.get_feature_names()]: the terms of the vocabulary in column
    order. *)
Definition get_feature_names (vectorize : option Vectorizer)
  : exc (list string) :=
  match vectorize with
  | None => Raise (AttributeError "get_feature_names")
  | Some v =>
      match vz_vocabulary v with
      | None => Raise NotFittedError
      | Some names => Ok names
      end
  end.

Section Method.

(** [model.feature_importances_] *)
Variable feature_importances_ : pyval -> exc (list Q).

Local Open Scope method_scope.

(** The value is the list of printed lines: a pair from the low end and a
    pair from the high end of the sorted scores. *)
Definition show_informative_features (n : Z) : M t (list (scored * scored)) :=
  self <- get ;;
  feature_names <- call (get_feature_names
                           (NLPProcessing.vectorize (processing self))) ;;
  importances <- call (feature_importances_ (model self)) ;;
  let coefs_names := sorted (combine importances feature_names) in
  ret (combine (slice_to coefs_names n) (slice_rev_to coefs_names (- (n + 1)))).

End Method.

(** [a < b] on tuples, as a proposition. *)
Definition tuple_lt (a b : scored) : Prop :=
  (fst a < fst b)%Q \/
  ((fst a == fst b)%Q /\ OrderedTypeEx.String_as_OT.lt (snd a) (snd b)).

(** [a <= b] on tuples: [b < a] does not hold. *)
Definition tuple_le (a b : scored) : Prop := tuple_ltb b a = false.

(** The five terms of the specification's scenario and their scores. *)
Definition five_terms : Vectorizer :=
  mkVectorizer TfidfVectorizer PyNone [] (PyInt 1) (PyFloat (Fin 1))
               (Some (PyInt 1, PyInt 1)) (Some ["a"; "b"; "c"; "d"; "e"]).

Definition five_scores (_ : pyval) : exc (list Q) :=
  Ok [1 # 10; 5 # 10; 5 # 100; 3 # 10; 2 # 10]%Q.

Definition pipeline_with (v : option Vectorizer) : t :=
  mk (NLPProcessing.mk PyNone (PyStr "") (PyInt 1) (PyFloat (Fin 1)) (PyInt 2)
                       v (PyInt 1) true false)
     (PyObj "Forest" []) (PyInt 2).

End JHPFeatures.
(** * Properties *)

(** ** Frame lemmas *)

Section Frame.

Context {S C : Type} (proj : S -> C).

Lemma keeps_ret {A} (a : A) : keeps proj (ret a).
Proof. intro s. reflexivity. Qed.

Lemma keeps_raise {A} (e : error) : keeps proj (@raise S A e).
Proof. intro s. reflexivity. Qed.

Lemma keeps_get : keeps proj (@get S).
Proof. intro s. reflexivity. Qed.

Lemma keeps_call {A} (r : exc A) : keeps proj (@call S A r).
Proof. intro s. reflexivity. Qed.

Lemma keeps_modify (f : S -> S) :
  (forall s, proj (f s) = proj s) -> keeps proj (modify f).
Proof. intros H s. apply H. Qed.

Lemma keeps_bind {A B} (m : M S A) (f : A -> M S B) :
  keeps proj m -> (forall a, keeps proj (f a)) -> keeps proj (bind m f).
Proof.
  intros Hm Hf s. unfold bind.
  pose proof (Hm s) as Hs.
  destruct (m s) as [[a | e] s']; simpl in *.
  - rewrite <- Hs. apply Hf.
  - exact Hs.
Qed.

End Frame.

(** One step of a frame proof: peel a bind, close a leaf, or split on the
    value a branch inspects. *)
Ltac keeps_step :=
  match goal with
  | |- keeps _ (bind _ _) => apply keeps_bind; [ | intros ]
  | |- keeps _ (ret _) => apply keeps_ret
  | |- keeps _ (raise _) => apply keeps_raise
  | |- keeps _ get => apply keeps_get
  | |- keeps _ (call _) => apply keeps_call
  | |- keeps _ (modify _) => apply keeps_modify; intros []; reflexivity
  | |- keeps _ (match ?x with _ => _ end) => destruct x
  | |- keeps _ (let _ := _ in _) => cbv zeta
  end.

Ltac keeps_auto := repeat keeps_step; auto.

Module NLPLemmas.

Import NLPProcessing NLPFacts.

Section WithCollaborators.

Variable E : Collaborators.

Lemma _do_stem_lem_keeps {C} (proj : t -> C) documents model stemmer :
  keeps proj (_do_stem_lem E documents model stemmer).
Proof. unfold _do_stem_lem. keeps_auto. Qed.

Lemma _stemlem_keeps_but_flag text_array :
  keeps but_flag (_stemlem E text_array).
Proof.
  unfold _stemlem, wordnet_lemmatizer, snowball_stemmatizer, porter_stemmatizer.
  keeps_auto; apply _do_stem_lem_keeps.
Qed.

Lemma _stemlem_keeps_config text_array : keeps config (_stemlem E text_array).
Proof.
  intro s. pose proof (_stemlem_keeps_but_flag text_array s) as H.
  unfold but_flag in H. congruence.
Qed.

Lemma _stemlem_keeps_vectorize text_array :
  keeps vectorize (_stemlem E text_array).
Proof.
  intro s. pose proof (_stemlem_keeps_but_flag text_array s) as H.
  unfold but_flag in H. congruence.
Qed.

Lemma vectorize_fit_keeps_config training_docs :
  keeps config (vectorize_fit E training_docs).
Proof.
  intro s. unfold vectorize_fit.
  destruct (vectorize s); [ | reflexivity ].
  destruct (vectorizer_fit E _ _); reflexivity.
Qed.

Lemma vectorize_transform_keeps {C} (proj : t -> C) doc_array :
  keeps proj (vectorize_transform E doc_array).
Proof. intro s. unfold vectorize_transform. destruct (vectorize s); reflexivity. Qed.

Lemma count_vectorize_keeps_config training_docs :
  keeps config (count_vectorize E training_docs).
Proof.
  unfold count_vectorize. keeps_auto. apply vectorize_fit_keeps_config.
Qed.

Lemma tfidf_vectorize_keeps_config training_docs :
  keeps config (tfidf_vectorize E training_docs).
Proof.
  unfold tfidf_vectorize. keeps_auto. apply vectorize_fit_keeps_config.
Qed.

Lemma fit_keeps_config data bucket filename :
  keeps config (fit E data bucket filename).
Proof.
  unfold fit. keeps_auto;
    auto using _stemlem_keeps_config, tfidf_vectorize_keeps_config.
Qed.

Lemma transform_keeps_config data bucket filename :
  keeps config (transform E data bucket filename).
Proof.
  unfold transform. keeps_auto;
    auto using _stemlem_keeps_config, vectorize_transform_keeps.
Qed.

Lemma fit_transform_keeps_config data bucket filename :
  keeps config (fit_transform E data bucket filename).
Proof.
  unfold fit_transform. keeps_auto;
    auto using _stemlem_keeps_config, tfidf_vectorize_keeps_config,
               vectorize_transform_keeps.
Qed.

Lemma no_vocabulary_transform_raises data bucket filename self :
  no_vocabulary self ->
  exists e self',
    transform E data bucket filename self = (Raise e, self') /\
    vectorize self' = vectorize self /\
    (vectorize self = None -> e = AttributeError must_fit_message).
Proof.
  unfold no_vocabulary. intro Hvoc.
  destruct (vectorize self) as [v | ] eqn:Hv.
  - unfold transform, bind, get, call. rewrite Hv. cbv iota.
    destruct (exc_bind _ _) as [[[a doc_array] y] | e].
    + pose proof (_stemlem_keeps_vectorize doc_array self) as Hk.
      destruct (_stemlem E doc_array self) as [[docs | e] s1]; simpl in Hk.
      * unfold vectorize_transform, vectorizer_transform.
        rewrite Hk, Hv, Hvoc.
        exists NotFittedError, s1. repeat split; [ congruence | discriminate ].
      * exists e, s1. repeat split; [ congruence | discriminate ].
    + exists e, self. repeat split; [ assumption | discriminate ].
  - exists (AttributeError must_fit_message), self.
    unfold transform, bind, get, raise. rewrite Hv. auto.
Qed.

Lemma vectorize_fit_raise_no_vocabulary training_docs self e self' :
  no_vocabulary self ->
  vectorize_fit E training_docs self = (Raise e, self') ->
  no_vocabulary self'.
Proof.
  unfold vectorize_fit, no_vocabulary. intros Hvoc Hrun.
  destruct (vectorize self) as [v | ] eqn:Hv.
  - destruct (vectorizer_fit E v training_docs); inversion Hrun; subst.
    now rewrite Hv.
  - inversion Hrun; subst. now rewrite Hv.
Qed.

Lemma tfidf_vectorize_raise_no_vocabulary training_docs self e self' :
  tfidf_vectorize E training_docs self = (Raise e, self') ->
  no_vocabulary self'.
Proof.
  unfold tfidf_vectorize, bind, get, modify. cbv zeta. intro Hrun.
  eapply vectorize_fit_raise_no_vocabulary; [ | exact Hrun ].
  unfold no_vocabulary. reflexivity.
Qed.

Lemma fit_raise_no_vocabulary data bucket filename self e self' :
  no_vocabulary self ->
  fit E data bucket filename self = (Raise e, self') ->
  no_vocabulary self'.
Proof.
  unfold fit, bind, get, call. intros Hvoc Hrun.
  destruct (exc_bind _ _) as [[[fit_array a] b] | e0].
  - pose proof (_stemlem_keeps_vectorize fit_array self) as Hk.
    destruct (_stemlem E fit_array self) as [[docs | e1] s1]; simpl in Hk.
    + eapply tfidf_vectorize_raise_no_vocabulary; exact Hrun.
    + inversion Hrun; subst. unfold no_vocabulary in *. now rewrite Hk.
  - inversion Hrun; subst. assumption.
Qed.

(** C10. A TF-IDF vectorizer is built with n-gram range (k, k) for the
    configured width k and is fitted as such; a count vectorizer is built
    with no n-gram range, so with the library default, and fitting it gives
    the same result and the same vectorizer whatever the configured width. *)
Theorem ngram_width_reaches_tfidf_only training_docs self :
  (let v := mkVectorizer TfidfVectorizer training_docs
                         (vectorizer_stop_words E self) (min_df self)
                         (max_df self) (Some (n_grams self, n_grams self)) None in
   tfidf_vectorize E training_docs self =
   match sk_fit_vocabulary E v training_docs with
   | Ok voc => (Ok tt, set_vectorize (Some (with_vocabulary v voc)) self)
   | Raise e => (Raise e, set_vectorize (Some v) self)
   end) /\
  (let v := mkVectorizer CountVectorizer training_docs
                         (vectorizer_stop_words E self) (min_df self)
                         (max_df self) None None in
   count_vectorize E training_docs self =
   match sk_fit_vocabulary E v training_docs with
   | Ok voc => (Ok tt, set_vectorize (Some (with_vocabulary v voc)) self)
   | Raise e => (Raise e, set_vectorize (Some v) self)
   end) /\
  (forall k,
     fst (count_vectorize E training_docs (set_n_grams k self)) =
     fst (count_vectorize E training_docs self) /\
     vectorize (snd (count_vectorize E training_docs (set_n_grams k self))) =
     vectorize (snd (count_vectorize E training_docs self))).
Proof.
  assert (forall kind range,
            let v := mkVectorizer kind training_docs
                       (vectorizer_stop_words E self) (min_df self)
                       (max_df self) range None in
            vectorize_fit E training_docs (set_vectorize (Some v) self) =
            match sk_fit_vocabulary E v training_docs with
            | Ok voc => (Ok tt, set_vectorize (Some (with_vocabulary v voc)) self)
            | Raise e => (Raise e, set_vectorize (Some v) self)
            end) as Hfit.
  { intros kind range v. unfold vectorize_fit, vectorizer_fit. simpl.
    destruct (sk_fit_vocabulary E v training_docs); reflexivity. }
  split; [ | split ].
  - exact (Hfit TfidfVectorizer (Some (n_grams self, n_grams self))).
  - exact (Hfit CountVectorizer None).
  - intro k. unfold count_vectorize, bind, get, modify, vectorize_fit,
      vectorizer_fit. simpl.
    destruct (sk_fit_vocabulary E _ training_docs); simpl; auto.
Qed.

(** C5. The stem/lemmatize step runs the stages the policy names, in its
    order: the lemmatizer first when "wordnet" is selected, then one stemmer
    at most, the snowball stemmer when "snowball" is selected (also when
    "porter" is too) and the Porter stemmer when only "porter" is; a later
    stage works on the output of the earlier one. *)
Theorem stemlem_runs_stages_in_order text_array self
    (lemmatization snowball porter : bool) :
  py_contains E "wordnet" (stemlem self) = Ok lemmatization ->
  py_contains E "snowball" (stemlem self) = Ok snowball ->
  py_contains E "porter" (stemlem self) = Ok porter ->
  fst (_stemlem E text_array self) =
  (docs <~ run_stages E (stemlem_stages lemmatization snowball porter) text_array ;;
   if eq_empty_str (stemlem self)
   then l <~ py_iter E docs ;; Ok (PyList l)
   else Ok docs).
Proof.
  intros Hw Hs Hp.
  unfold _stemlem, wordnet_lemmatizer, snowball_stemmatizer, porter_stemmatizer,
    _do_stem_lem, bind, get, modify, call, ret.
  simpl. rewrite Hw, Hs, Hp.
  destruct lemmatization, snowball, porter; simpl;
    repeat (rewrite ?andb_false_r;
            match goal with
            | |- context [stem_lem_documents E [] ?d ?m ?b] =>
                destruct (stem_lem_documents E [] d m b); simpl
            end);
    try reflexivity;
    destruct (eq_empty_str (stemlem self)); simpl; try reflexivity;
    match goal with
    | |- context [py_iter E ?d] => destruct (py_iter E d); reflexivity
    end.
Qed.

(** With a stemmer or a lemmatizer selected the vectorizer is given no stop
    word; with none selected it is given all of them and the stem/lemmatize
    step only copies the documents. *)
Lemma stemming_disables_vectorizer_stop_words self :
  eq_empty_str (stemlem self) = false -> vectorizer_stop_words E self = [].
Proof.
  intro H. unfold vectorizer_stop_words. now rewrite H, andb_false_r.
Qed.

Lemma plain_mode_leaves_removal_to_vectorizer text_array self :
  stemlem self = PyStr "" -> use_stopwords self = true ->
  vectorizer_stop_words E self = get_stopwords E /\
  fst (_stemlem E text_array self) = (l <~ py_iter E text_array ;; Ok (PyList l)).
Proof.
  intros Hs Hu. split.
  - unfold vectorizer_stop_words. now rewrite Hs, Hu.
  - unfold _stemlem, bind, get, modify, call, ret. simpl. rewrite Hs. simpl.
    destruct (py_iter E text_array); reflexivity.
Qed.

Lemma transform_result_is_pair data bucket filename self v self' :
  transform E data bucket filename self = (Ok v, self') ->
  exists x y, v = PyTuple [x; y].
Proof.
  unfold transform, bind, get, call, raise, ret.
  destruct (vectorize self); [ | discriminate ].
  destruct (exc_bind _ _) as [[[a doc_array] y] | e]; [ | discriminate ].
  destruct (_stemlem E doc_array self) as [[docs | e] s1]; [ | discriminate ].
  destruct (vectorize_transform E docs s1) as [[x | e] s2]; [ | discriminate ].
  intro H. inversion H; subst. eauto.
Qed.

End WithCollaborators.

(** C5, for the mode that names all three methods. *)
Lemma stemlem_runs_stages_in_order_witness :
  fst (_stemlem (Reference.env []) (PyList [PyStr "the cities jobs"])
         (mk PyNone (PyStr "wordnet snowball porter") (PyInt 1)
             (PyFloat (Fin 1)) (PyInt 2) None (PyInt 1) true false)) =
  (docs <~ run_stages (Reference.env [])
             [WordNetLemmatizer; SnowballStemmer_english]
             (PyList [PyStr "the cities jobs"]) ;;
   Ok docs).
Proof.
  exact (stemlem_runs_stages_in_order (Reference.env [])
           (PyList [PyStr "the cities jobs"])
           (mk PyNone (PyStr "wordnet snowball porter") (PyInt 1)
               (PyFloat (Fin 1)) (PyInt 2) None (PyInt 1) true false)
           true true true eq_refl eq_refl eq_refl).
Defined.

(** C3. With stop-word removal enabled and the Porter stemmer selected, no
    stage removes a stop word: the vectorizer is built with an empty
    stop-word set, and the stop word "the" of the adverts is a term of the
    fitted vocabulary. *)
Theorem stop_words_survive_stemming :
  exists self fitted v voc,
    __init__ (PyStr "porter") (PyInt 1) (PyFloat (Fin 1)) (PyInt 2) (PyInt 1)
             true = Ok self /\
    fit (Reference.env []) Reference.adverts PyNone PyNone self
      = (Ok tt, fitted) /\
    vectorize fitted = Some v /\
    vz_stop_words v = [] /\
    vz_vocabulary v = Some voc /\
    In "the" (get_stopwords (Reference.env [])) /\
    In "the" voc.
Proof.
  do 4 eexists.
  split; [ reflexivity | ].
  split; [ vm_compute; reflexivity | ].
  split; [ reflexivity | ].
  split; [ reflexivity | ].
  split; [ reflexivity | ].
  split; simpl; auto.
Qed.

End NLPLemmas.

(** ** Lists and sums *)

Lemma map_exc_ok {A B} (f : A -> exc B) (g : A -> B) (l : list A) :
  (forall x, In x l -> f x = Ok (g x)) -> map_exc f l = Ok (map g l).
Proof.
  induction l as [ | x rest IH ]; intro H; simpl.
  - reflexivity.
  - rewrite (H x) by (now left). simpl.
    rewrite IH by (intros; apply H; now right). reflexivity.
Qed.

Lemma list_as_map_nth {A} (d : A) (l : list A) :
  l = map (fun i => nth i l d) (seq 0 (List.length l)).
Proof.
  apply (nth_ext _ _ d (nth 0 l d)).
  - now rewrite length_map, length_seq.
  - intros i Hi.
    rewrite (map_nth (fun i => nth i l d)), seq_nth by assumption.
    reflexivity.
Qed.

Lemma nth_error_map_seq {A} (h : nat -> A) (n i : nat) :
  (i < n)%nat -> nth_error (map h (seq 0 n)) i = Some (h i).
Proof.
  intro Hi.
  rewrite (nth_error_nth' _ (h 0%nat))
    by (now rewrite length_map, length_seq).
  rewrite (map_nth h), seq_nth by assumption. reflexivity.
Qed.

Lemma np_zip1_maps {A} (op : fl -> fl -> fl) (f g : A -> fl) (l : list A) :
  np_zip1 op (map f l) (map g l) = Ok (map (fun i => op (f i) (g i)) l).
Proof.
  unfold np_zip1. rewrite !length_map, Nat.eqb_refl. f_equal.
  induction l as [ | x rest IH ]; simpl; [ reflexivity | now rewrite IH ].
Qed.







(** ** Running a method to a result *)

Lemma bind_ok {S A B} (m : M S A) (f : A -> M S B) s b s' :
  bind m f s = (Ok b, s') ->
  exists a s1, m s = (Ok a, s1) /\ f a s1 = (Ok b, s').
Proof.
  unfold bind. destruct (m s) as [[a | e] s1]; intro H.
  - exists a, s1. auto.
  - discriminate H.
Qed.

Lemma call_ok {S A} (r : exc A) (s : S) a s' :
  call r s = (Ok a, s') -> r = Ok a /\ s' = s.
Proof. unfold call. intro H. inversion H. auto. Qed.

(** ** Exact sums *)

Lemma Qsum_plus {A} (f g : A -> Q) (l : list A) :
  (JHPFacts.Qsum (map (fun x => f x + g x) l) ==
   JHPFacts.Qsum (map f l) + JHPFacts.Qsum (map g l))%Q.
Proof.
  induction l as [ | x rest IH ]; simpl.
  - reflexivity.
  - rewrite IH. ring.
Qed.

Lemma Qsum_ext {A} (f g : A -> Q) (l : list A) :
  (forall x, In x l -> (f x == g x)%Q) ->
  (JHPFacts.Qsum (map f l) == JHPFacts.Qsum (map g l))%Q.
Proof.
  induction l as [ | x rest IH ]; intro H; simpl.
  - reflexivity.
  - rewrite (H x) by (now left).
    rewrite IH by (intros; apply H; now right). reflexivity.
Qed.

Lemma fold_fadd_finite (l : list fl) :
  forall a, Forall (fun x => is_finite x = true) l ->
  exists s, fold_left fadd l (Fin a) = Fin s /\ (s == a + JHPFacts.qsum l)%Q.
Proof.
  induction l as [ | x rest IH ]; intros a Hl; simpl.
  - exists a. split; [ reflexivity | unfold JHPFacts.qsum; simpl; ring ].
  - inversion Hl as [ | ? ? Hx Hrest ]; subst.
    destruct x as [q | | | ]; try discriminate Hx. simpl.
    destruct (IH (Qred (a + q)) Hrest) as (s & Hs & Heq).
    exists s. split; [ assumption | ].
    rewrite Heq, Qred_correct. unfold JHPFacts.qsum. simpl. ring.
Qed.

Lemma fsum_finite (l : list fl) :
  Forall (fun x => is_finite x = true) l ->
  exists s, fsum l = Fin s /\ (s == JHPFacts.qsum l)%Q.
Proof.
  intro Hl. destruct (fold_fadd_finite l 0 Hl) as (s & Hs & Heq).
  exists s. split; [ exact Hs | rewrite Heq; ring ].
Qed.

Lemma total_finite (m : matrix) :
  JHPFacts.finite m ->
  exists s, total m = Fin s /\ (s == JHPFacts.qtotal m)%Q.
Proof.
  intro Hm. unfold total.
  assert (Forall (fun x => is_finite x = true) (map fsum m) /\
          (JHPFacts.qsum (map fsum m) == JHPFacts.qtotal m)%Q) as [Hfin Heq].
  { induction Hm as [ | row rest Hrow Hrest [IH1 IH2] ]; simpl.
    - split; [ constructor | reflexivity ].
    - destruct (fsum_finite row Hrow) as (s & Hs & Hsq).
      split.
      + constructor; [ now rewrite Hs | assumption ].
      + unfold JHPFacts.qsum, JHPFacts.qtotal in *. simpl.
        rewrite Hs. simpl. rewrite Hsq, IH2. reflexivity. }
  destruct (fsum_finite _ Hfin) as (s & Hs & Hsq).
  exists s. split; [ assumption | now rewrite Hsq ].
Qed.

Module JHPLemmas.

Import JHPModel JHPFacts.

(** *** The scores of a square array *)

Lemma square_ncols n m : square n m -> ncols m = n.
Proof.
  intros [Hrows Hall]. destruct m as [ | row rest ]; simpl in *.
  - assumption.
  - now inversion Hall.
Qed.

Lemma square_row_length n m i :
  square n m -> (i < n)%nat -> List.length (nth i m []) = n.
Proof.
  intros [Hrows Hall] Hi. rewrite Forall_forall in Hall.
  apply Hall, nth_In. unfold nrows in Hrows. now rewrite Hrows.
Qed.

Lemma get_scores_square n m :
  square n m -> _get_scores m = Ok (map (score_line_of m) (seq 0 n)).
Proof.
  intro Hsq. pose proof (square_ncols n m Hsq) as Hcols.
  destruct Hsq as [Hrows _]. unfold nrows in Hrows.
  unfold _get_scores, np_diag, sum_axis1, sum_axis0, nrows.
  rewrite Hcols, Hrows, Nat.min_id.
  assert (map fsum m = map (fun i => fsum (nth i m [])) (seq 0 n)) as ->.
  { transitivity (map fsum (map (fun i => nth i m []) (seq 0 n))).
    - f_equal. rewrite <- Hrows. apply list_as_map_nth.
    - apply map_map. }
  rewrite np_zip1_maps. simpl.
  rewrite np_zip1_maps. simpl.
  rewrite !map_map, np_zip1_maps. simpl. rewrite map_map.
  apply map_exc_ok. intros i Hi. apply in_seq in Hi. destruct Hi as [_ Hi].
  simpl in Hi. unfold np_item.
  rewrite !nth_error_map_seq by assumption. reflexivity.
Qed.


Section WithCollaborators.

Variable E : Collaborators.

Lemma on_processing_keeps_config {A} (m : M NLPProcessing.t A) :
  keeps NLPFacts.config m -> keeps config (on_processing m).
Proof.
  intros Hm s. unfold on_processing, config.
  pose proof (Hm (processing s)) as Hs.
  destruct (m (processing s)) as [r p]; simpl in *. now rewrite Hs.
Qed.

Lemma model_fit_keeps_config features labels :
  keeps config (model_fit E features labels).
Proof.
  intro s. unfold model_fit. destruct (clf_fit E _ _ _); reflexivity.
Qed.

Lemma pipeline_fit_keeps_config training bucket filename :
  keeps config (fit E training bucket filename).
Proof.
  unfold fit. keeps_auto;
    auto using on_processing_keeps_config, NLPLemmas.fit_transform_keeps_config,
               model_fit_keeps_config.
Qed.

Lemma predict_keeps_config testing : keeps config (predict E testing).
Proof.
  unfold predict. keeps_auto;
    auto using on_processing_keeps_config, NLPLemmas.transform_keeps_config.
Qed.

Lemma fold_body_keeps_config df scores confusion train_index test_index :
  keeps config (fold_body E df scores confusion train_index test_index).
Proof.
  unfold fold_body. keeps_auto;
    auto using on_processing_keeps_config, NLPLemmas.transform_keeps_config,
               pipeline_fit_keeps_config.
Qed.

Lemma fold_loop_keeps_config df folds :
  forall scores confusion, keeps config (fold_loop E df folds scores confusion).
Proof.
  induction folds as [ | [train_index test_index] rest IH ]; intros; simpl.
  - apply keeps_ret.
  - apply keeps_bind; [ apply fold_body_keeps_config | ].
    intros [scores' confusion']. apply IH.
Qed.

Lemma cross_validate_keeps_config data bucket filename n_splits :
  keeps config (cross_validate E data bucket filename n_splits).
Proof.
  unfold cross_validate. keeps_auto; auto using fold_loop_keeps_config.
Qed.

(** C9. After construction, whatever sequence of fit, transform,
    fit_transform, predict and cross_validate calls is made on a pipeline or
    on its preprocessor, and whether they return or raise, the configuration
    fields (stemming/lemmatization mode, minimum and maximum document
    frequency, n-gram width, stop-word toggle, class count) hold the values
    the constructor was given. *)
Theorem configuration_fixed_at_construction
    stemlem min_df max_df num_cities n_grams use_stopwords self :
  after_construction E stemlem min_df max_df num_cities n_grams use_stopwords self ->
  NLPProcessing.stemlem (processing self) = stemlem /\
  NLPProcessing.min_df (processing self) = min_df /\
  NLPProcessing.max_df (processing self) = max_df /\
  NLPProcessing.n_grams (processing self) = n_grams /\
  NLPProcessing.use_stopwords (processing self) = use_stopwords /\
  NLPProcessing.num_cities (processing self) = num_cities /\
  classes self = num_cities.
Proof.
  intro H.
  assert (config self =
          ((stemlem, min_df, max_df, num_cities, n_grams, use_stopwords),
           num_cities)) as Hc.
  { induction H as [ model self Hinit | | | | | | ].
    - cbv in Hinit. injection Hinit as <-. reflexivity.
    - rewrite pipeline_fit_keeps_config; assumption.
    - rewrite predict_keeps_config; assumption.
    - rewrite cross_validate_keeps_config; assumption.
    - rewrite on_processing_keeps_config;
        [ assumption | apply NLPLemmas.fit_keeps_config ].
    - rewrite on_processing_keeps_config;
        [ assumption | apply NLPLemmas.transform_keeps_config ].
    - rewrite on_processing_keeps_config;
        [ assumption | apply NLPLemmas.fit_transform_keeps_config ]. }
  unfold config, NLPFacts.config in Hc.
  injection Hc as -> -> -> -> -> -> ->. repeat split; reflexivity.
Qed.

(** *** Adding fold matrices of the accumulator's shape *)

Lemma square_as_cells n m :
  square n m ->
  m = map (fun i => map (fun j => cell m i j) (seq 0 n)) (seq 0 n).
Proof.
  intro Hsq. pose proof Hsq as [Hrows _]. unfold nrows in Hrows.
  rewrite (list_as_map_nth [] m) at 1. rewrite Hrows.
  apply map_ext_in. intros i Hi. apply in_seq in Hi. destruct Hi as [_ Hi].
  simpl in Hi. unfold cell.
  rewrite (list_as_map_nth (Fin 0) (nth i m [])) at 1.
  now rewrite (square_row_length n m i Hsq Hi).
Qed.

Lemma cell_finite n m i j :
  square n m -> finite m -> (i < n)%nat -> (j < n)%nat ->
  is_finite (cell m i j) = true.
Proof.
  intros Hsq Hfin Hi Hj. pose proof (square_row_length n m i Hsq Hi) as Hlen.
  destruct Hsq as [Hrows _]. unfold nrows in Hrows.
  unfold finite in Hfin. rewrite Forall_forall in Hfin.
  assert (In (nth i m []) m) as Hrow by (apply nth_In; now rewrite Hrows).
  pose proof (Hfin _ Hrow) as Hr. rewrite Forall_forall in Hr.
  apply Hr. unfold cell. apply nth_In. now rewrite Hlen.
Qed.

Lemma np_iadd_square n a b :
  square n a -> square n b -> np_iadd a b = Ok (elementwise_sum n a b).
Proof.
  intros Ha Hb.
  pose proof (square_ncols n a Ha) as Hca.
  pose proof (square_ncols n b Hb) as Hcb.
  destruct Ha as [Hra _]. destruct Hb as [Hrb _].
  unfold np_iadd. rewrite Hra, Hrb, Hca, Hcb, Nat.eqb_refl. simpl.
  unfold elementwise_sum.
  assert (forall i, (i < n)%nat -> bcast_index n i = i) as Hidx.
  { intros i Hi. unfold bcast_index.
    destruct (Nat.eqb_spec n 1); [ lia | reflexivity ]. }
  apply f_equal.
  apply map_ext_in. intros i Hi. apply in_seq in Hi.
  apply map_ext_in. intros j Hj. apply in_seq in Hj.
  rewrite !Hidx by lia. reflexivity.
Qed.

Lemma elementwise_sum_square n a b : square n (elementwise_sum n a b).
Proof.
  unfold square, elementwise_sum, nrows. split.
  - now rewrite length_map, length_seq.
  - apply Forall_forall. intros row Hrow. apply in_map_iff in Hrow.
    destruct Hrow as (i & <- & _). now rewrite length_map, length_seq.
Qed.

Lemma elementwise_sum_finite n a b :
  square n a -> square n b -> finite a -> finite b ->
  finite (elementwise_sum n a b).
Proof.
  intros Ha Hb Hfa Hfb. unfold finite, elementwise_sum.
  apply Forall_forall. intros row Hrow. apply in_map_iff in Hrow.
  destruct Hrow as (i & <- & Hi). apply in_seq in Hi.
  apply Forall_forall. intros x Hx. apply in_map_iff in Hx.
  destruct Hx as (j & <- & Hj). apply in_seq in Hj.
  pose proof (cell_finite n a i j Ha Hfa ltac:(lia) ltac:(lia)) as H1.
  pose proof (cell_finite n b i j Hb Hfb ltac:(lia) ltac:(lia)) as H2.
  destruct (cell a i j), (cell b i j); try discriminate; reflexivity.
Qed.

Lemma qtotal_cells n (f : nat -> nat -> fl) :
  qtotal (map (fun i => map (fun j => f i j) (seq 0 n)) (seq 0 n)) =
  Qsum (map (fun i => Qsum (map (fun j => qval (f i j)) (seq 0 n))) (seq 0 n)).
Proof.
  unfold qtotal, qsum. rewrite map_map. f_equal.
  apply map_ext. intro i. now rewrite map_map.
Qed.

Lemma qtotal_elementwise_sum n a b :
  square n a -> square n b -> finite a -> finite b ->
  (qtotal (elementwise_sum n a b) == qtotal a + qtotal b)%Q.
Proof.
  intros Ha Hb Hfa Hfb.
  rewrite (square_as_cells n a Ha) at 2.
  rewrite (square_as_cells n b Hb) at 2.
  unfold elementwise_sum. rewrite !qtotal_cells, <- Qsum_plus.
  apply Qsum_ext. intros i Hi. apply in_seq in Hi.
  rewrite <- Qsum_plus. apply Qsum_ext. intros j Hj. apply in_seq in Hj.
  pose proof (cell_finite n a i j Ha Hfa ltac:(lia) ltac:(lia)) as H1.
  pose proof (cell_finite n b i j Hb Hfb ltac:(lia) ltac:(lia)) as H2.
  destruct (cell a i j) as [x | | | ], (cell b i j) as [y | | | ];
    try discriminate.
  change (Qred (x + y) == x + y)%Q. apply Qred_correct.
Qed.

Lemma add_all_square n ms :
  Forall (fun m => square n m /\ finite m) ms ->
  forall c0, square n c0 -> finite c0 ->
  exists c, add_all c0 ms = Ok c /\ square n c /\ finite c /\
            (qtotal c == qtotal c0 + Qsum (map qtotal ms))%Q.
Proof.
  induction 1 as [ | m rest [Hm Hfm] _ IH ]; intros c0 Hc0 Hf0; simpl.
  - exists c0. split; [ reflexivity | ].
    repeat split; try apply Hc0; try assumption. simpl. ring.
  - rewrite (np_iadd_square n c0 m Hc0 Hm). simpl.
    destruct (IH (elementwise_sum n c0 m) (elementwise_sum_square n c0 m)
                 (elementwise_sum_finite n c0 m Hc0 Hm Hf0 Hfm))
      as (c & Hc & Hsq & Hfin & Htot).
    exists c. split; [ assumption | ].
    split; [ assumption | ]. split; [ assumption | ].
    rewrite Htot, (qtotal_elementwise_sum n c0 m Hc0 Hm Hf0 Hfm).
    simpl. ring.
Qed.

Lemma matrix_of_Z_finite (m : list (list Z)) : finite (matrix_of_Z m).
Proof.
  unfold finite, matrix_of_Z. apply Forall_forall. intros row Hrow.
  apply in_map_iff in Hrow. destruct Hrow as (r & <- & _).
  apply Forall_forall. intros x Hx. apply in_map_iff in Hx.
  destruct Hx as (z & <- & _). reflexivity.
Qed.

Lemma np_zeros_square (n : nat) :
  exists z, np_zeros (PyInt (Z.of_nat n)) (PyInt (Z.of_nat n)) = Ok z /\
            square n z /\ finite z /\ (qtotal z == 0)%Q.
Proof.
  exists (repeat (repeat (Fin 0) n) n). split; [ | split; [ | split ] ].
  - unfold np_zeros.
    destruct (Z.ltb_spec (Z.of_nat n) 0); [ lia | ].
    simpl. now rewrite Nat2Z.id.
  - split; [ apply repeat_length | ].
    apply Forall_forall. intros row Hrow. apply repeat_spec in Hrow. subst.
    apply repeat_length.
  - apply Forall_forall. intros row Hrow. apply repeat_spec in Hrow. subst.
    apply Forall_forall. intros x Hx. apply repeat_spec in Hx. now subst.
  - assert (forall k, qsum (repeat (Fin 0) k) == 0)%Q as Hrow.
    { induction k as [ | k IH ]; unfold qsum in *; simpl;
        [ reflexivity | rewrite IH; ring ]. }
    generalize (repeat (Fin 0) n) (Hrow n). intros row Hr.
    induction n as [ | k IH ]; unfold qtotal in *; simpl;
      [ reflexivity | rewrite IH, Hr; ring ].
Qed.

(** *** The loop over the folds *)

Lemma data_or_import_ok data bucket filename (self : t) df self' :
  (if is_None data then call (import_data E bucket filename) else ret data)
    self = (Ok df, self') ->
  JHPSpec.data_or_import E data bucket filename = Ok df /\ self' = self.
Proof.
  unfold JHPSpec.data_or_import. destruct (is_None data); intro H.
  - now apply call_ok in H.
  - unfold ret in H. inversion H. auto.
Qed.

Lemma fold_body_run df scores confusion train_index test_index self
    scores' confusion' self' :
  fold_body E df scores confusion train_index test_index self
    = (Ok (scores', confusion'), self') ->
  exists score cm,
    JHPSpec.fold_outcome E df train_index test_index self score cm self' /\
    scores' = (scores ++ [score])%list /\
    np_iadd confusion (matrix_of_Z cm) = Ok confusion'.
Proof.
  intro H. unfold fold_body in H.
  apply bind_ok in H as (training & s1 & Htr & H).
  apply bind_ok in H as ([] & fitted & Hfit & H).
  apply bind_ok in H as (self0 & s3 & Hget0 & H).
  apply bind_ok in H as (testing & s4 & Hte & H).
  apply bind_ok in H as (df_test & s5 & Hmd & H).
  apply bind_ok in H as (X_test & s6 & Htf & H).
  apply bind_ok in H as (y_test & s7 & Hy & H).
  apply bind_ok in H as (self1 & s8 & Hget1 & H).
  apply bind_ok in H as (score & s9 & Hscore & H).
  apply bind_ok in H as (predicted & s10 & Hpred & H).
  apply bind_ok in H as (cm & s11 & Hcm & H).
  apply bind_ok in H as (c & s12 & Hadd & H).
  apply call_ok in Htr as [Htr ->].
  unfold get in Hget0. inversion Hget0; subst self0 s3.
  apply call_ok in Hte as [Hte ->]. apply call_ok in Hmd as [Hmd ->].
  apply call_ok in Hy as [Hy ->].
  unfold get in Hget1. inversion Hget1; subst self1 s8.
  apply call_ok in Hscore as [Hscore ->].
  apply call_ok in Hpred as [Hpred ->].
  apply call_ok in Hcm as [Hcm ->]. apply call_ok in Hadd as [Hadd ->].
  unfold ret in H. inversion H; subst.
  exists score, cm. repeat split; try assumption.
  exists training, fitted, testing, df_test, X_test, y_test, predicted.
  repeat split; assumption.
Qed.

Lemma fold_loop_run df folds :
  forall scores confusion self scores' confusion' self',
  fold_loop E df folds scores confusion self
    = (Ok (scores', confusion'), self') ->
  exists new cms,
    JHPSpec.folds_run E df folds self new cms self' /\
    scores' = (scores ++ new)%list /\
    add_all confusion (map matrix_of_Z cms) = Ok confusion'.
Proof.
  induction folds as [ | [train_index test_index] rest IH ];
    intros scores confusion self scores' confusion' self' H; simpl in H.
  - unfold ret in H. inversion H; subst. exists [], [].
    rewrite app_nil_r. repeat split. constructor.
  - apply bind_ok in H as ([scores1 confusion1] & s1 & Hbody & H).
    apply fold_body_run in Hbody as (score & cm & Hout & -> & Hadd).
    apply IH in H as (new & cms & Hrun & -> & Hsum).
    exists (score :: new), (cm :: cms). rewrite <- app_assoc. simpl.
    rewrite Hadd. simpl. repeat split; try assumption.
    econstructor; eassumption.
Qed.

Lemma folds_run_lengths df folds self scores cms self' :
  JHPSpec.folds_run E df folds self scores cms self' ->
  List.length scores = List.length folds /\
  List.length cms = List.length folds.
Proof.
  induction 1 as [ | ? ? ? ? ? ? ? ? ? ? _ _ [IH1 IH2] ]; simpl; auto.
Qed.

(** A [cross_validate] that returned, step by step. *)
Lemma cross_validate_run data bucket filename n_splits self report self' :
  cross_validate E data bucket filename n_splits self = (Ok report, self') ->
  exists kf df zeros folds scores cms,
    KFold E n_splits = Ok kf /\
    JHPSpec.data_or_import E data bucket filename = Ok df /\
    np_zeros (classes self) (classes self) = Ok zeros /\
    kf_split E kf df = Ok folds /\
    JHPSpec.folds_run E df folds self scores cms self' /\
    add_all zeros (map matrix_of_Z cms) = Ok (confusion report) /\
    accuracy report = np_mean scores /\
    _get_scores (confusion report) = Ok (lines report).
Proof.
  intro H. unfold cross_validate in H.
  apply bind_ok in H as (kf & s1 & Hkf & H).
  apply bind_ok in H as (df & s2 & Hdf & H).
  apply bind_ok in H as (self0 & s3 & Hget & H).
  apply bind_ok in H as (zeros & s4 & Hz & H).
  apply bind_ok in H as (folds & s5 & Hsplit & H).
  apply bind_ok in H as ([scores c] & s6 & Hloop & H).
  apply bind_ok in H as (ls & s7 & Hlines & H).
  apply call_ok in Hkf as [Hkf ->].
  apply data_or_import_ok in Hdf as [Hdf ->].
  unfold get in Hget. inversion Hget; subst self0 s3.
  apply call_ok in Hz as [Hz ->]. apply call_ok in Hsplit as [Hsplit ->].
  apply call_ok in Hlines as [Hlines ->].
  apply fold_loop_run in Hloop as (new & cms & Hrun & Hnew & Hsum).
  simpl in Hnew. subst scores.
  unfold ret in H. inversion H; subst.
  exists kf, df, zeros, folds, new, cms. simpl. auto 10.
Qed.

(** The confusion matrices that are added up are those of the folds of the
    run, in order. When the class count is [n] and each of them is [n] by
    [n], the aggregate is their elementwise sum: it is [n] by [n] and its
    entries add up to the sum of the entries of the fold matrices. *)
Lemma aggregate_of_full_fold_matrices
    data bucket filename n_splits self report self' (n : nat) :
  classes self = PyInt (Z.of_nat n) ->
  cross_validate E data bucket filename n_splits self = (Ok report, self') ->
  exists kf df folds scores cms zeros,
    KFold E n_splits = Ok kf /\
    JHPSpec.data_or_import E data bucket filename = Ok df /\
    kf_split E kf df = Ok folds /\
    JHPSpec.folds_run E df folds self scores cms self' /\
    np_zeros (PyInt (Z.of_nat n)) (PyInt (Z.of_nat n)) = Ok zeros /\
    add_all zeros (map matrix_of_Z cms) = Ok (confusion report) /\
    (Forall (fun cm => square n (matrix_of_Z cm)) cms ->
     square n (confusion report) /\
     exists s, total (confusion report) = Fin s /\
               (s == Qsum (map (fun cm => qtotal (matrix_of_Z cm)) cms))%Q).
Proof.
  intros Hclasses H.
  apply cross_validate_run in H
    as (kf & df & zeros & folds & scores & cms
        & Hkf & Hdf & Hz & Hsplit & Hrun & Hsum & _ & _).
  rewrite Hclasses in Hz.
  exists kf, df, folds, scores, cms, zeros.
  do 6 (split; [ assumption | ]). intro Hshapes.
  destruct (np_zeros_square n) as (z & Hz' & Hsq & Hfin & Htot).
  rewrite Hz' in Hz. inversion Hz; subst zeros.
  destruct (add_all_square n (map matrix_of_Z cms)) with (c0 := z)
    as (c' & Hc' & Hsq' & Hfin' & Htot'); try assumption.
  { apply Forall_forall. intros m Hm. apply in_map_iff in Hm.
    destruct Hm as (m0 & <- & Hin). rewrite Forall_forall in Hshapes.
    split; [ now apply Hshapes | apply matrix_of_Z_finite ]. }
  rewrite Hsum in Hc'. inversion Hc' as [Hc]. rewrite Hc.
  split; [ assumption | ].
  destruct (total_finite c' Hfin') as (s & Hs & Heq).
  exists s. split; [ assumption | ].
  rewrite Heq, Htot', Htot, map_map. ring.
Qed.

Lemma predict_calls_classifier_on_transform_result testing self v mid :
  on_processing (NLPProcessing.transform E
                   (if isinstance_str testing then PyList [testing] else testing)
                   PyNone PyNone) self = (Ok v, mid) ->
  predict E testing self = (clf_predict E (model mid) v, mid) /\
  exists x y, v = PyTuple [x; y].
Proof.
  intro Hrun. split.
  - unfold predict, bind, get, call. now rewrite Hrun.
  - unfold on_processing in Hrun.
    destruct (NLPProcessing.transform E _ PyNone PyNone (processing self))
      as [r p] eqn:Ht.
    inversion Hrun; subst.
    eapply NLPLemmas.transform_result_is_pair; eassumption.
Qed.

End WithCollaborators.


(** C9, after a construction followed by a predict call. *)
Lemma configuration_fixed_at_construction_witness :
  let self := snd (predict (Reference.env []) (PyStr "jobs")
                     (mk (NLPProcessing.mk PyNone (PyStr "porter") (PyInt 1)
                            (PyFloat (Fin 1)) (PyInt 2) None (PyInt 1) true false)
                         (PyObj "Echo" []) (PyInt 2))) in
  after_construction (Reference.env []) (PyStr "porter") (PyInt 1)
    (PyFloat (Fin 1)) (PyInt 2) (PyInt 1) true self /\
  (NLPProcessing.stemlem (processing self) = PyStr "porter" /\
   NLPProcessing.min_df (processing self) = PyInt 1 /\
   NLPProcessing.max_df (processing self) = PyFloat (Fin 1) /\
   NLPProcessing.n_grams (processing self) = PyInt 1 /\
   NLPProcessing.use_stopwords (processing self) = true /\
   NLPProcessing.num_cities (processing self) = PyInt 2 /\
   classes self = PyInt 2).
Proof.
  intro self.
  assert (after_construction (Reference.env []) (PyStr "porter") (PyInt 1)
            (PyFloat (Fin 1)) (PyInt 2) (PyInt 1) true self) as H.
  { apply after_predict. apply (constructed _ _ _ _ _ _ _ (PyObj "Echo" [])).
    reflexivity. }
  split; [ exact H | ].
  exact (configuration_fixed_at_construction (Reference.env []) _ _ _ _ _ _ _ H).
Defined.

(** C8, as stated, fails: with a maximum document frequency below the
    minimum, an n-gram width of zero and a class count of zero, both
    constructors return an instance and raise nothing. *)
Lemma contradictory_configuration_is_accepted :
  (forall e, __init__ (PyObj "Echo" []) (PyStr "") (PyInt 5) (PyInt 1) (PyInt 0)
                      (PyInt 0) true <> Raise e) /\
  (forall e, NLPProcessing.__init__ (PyStr "") (PyInt 5) (PyInt 1) (PyInt 0)
                                    (PyInt 0) true <> Raise e).
Proof. split; intros e H; discriminate H. Qed.

(** C8, amended. Construction validates nothing: for every configuration,
    contradictory or out of range as it may be, both constructors return an
    instance that holds the values as given. *)
Theorem construction_stores_any_configuration
    model stemlem min_df max_df num_cities n_grams use_stopwords :
  __init__ model stemlem min_df max_df num_cities n_grams use_stopwords =
    Ok (mk (NLPProcessing.mk PyNone stemlem min_df max_df num_cities None
                             n_grams use_stopwords false)
           model num_cities) /\
  NLPProcessing.__init__ stemlem min_df max_df num_cities n_grams use_stopwords =
    Ok (NLPProcessing.mk PyNone stemlem min_df max_df num_cities None n_grams
                         use_stopwords false).
Proof. split; reflexivity. Qed.

(** C2. On the matrix [[8,2],[1,9]] (rows = truth, columns = predicted) the
    printed precision of class 0 is 8/10, the diagonal entry over the row
    sum, and the printed recall is 8/9, the diagonal entry over the column
    sum: the two are exchanged with respect to the claim. F1 is the harmonic
    mean of the two either way. *)
Theorem scores_of_the_example_matrix :
  exists line0 line1,
    _get_scores (matrix_of_Z [[8; 2]; [1; 9]]) = Ok [line0; line1] /\
    line_class line0 = 0%nat /\
    feq (line_precision line0) (Fin (8 # 10)) /\
    feq (line_recall line0) (Fin (8 # 9)) /\
    feq (line_F1 line0)
        (Fin (2 * (8 # 9) * (8 # 10) / ((8 # 9) + (8 # 10)))) /\
    ~ feq (line_precision line0) (Fin (8 # 9)) /\
    ~ feq (line_recall line0) (Fin (8 # 10)).
Proof.
  do 2 eexists.
  split; [ vm_compute; reflexivity | ].
  cbn [line_class line_precision line_recall line_F1 feq].
  repeat split; try reflexivity; intro H; discriminate H.
Qed.

(** C1. A pipeline fitted on the three documents of the scenario, asked to
    predict one document: the preprocessor's transform returns the pair of
    the feature matrix and the labels, and it is this pair, not the feature
    matrix, that the classifier's predict receives. *)
Theorem predict_hands_the_pair_to_the_classifier :
  exists self fitted features labels,
    __init__ (PyObj "Echo" []) (PyStr "") (PyInt 1) (PyFloat (Fin 1)) (PyInt 2)
             (PyInt 1) false = Ok self /\
    fit (Reference.env []) Reference.three_documents PyNone PyNone self
      = (Ok tt, fitted) /\
    on_processing
      (NLPProcessing.transform (Reference.env [])
         (PyList [PyStr "los angeles jobs"]) PyNone PyNone) fitted
      = (Ok (PyTuple [features; labels]), fitted) /\
    features = PyList [PyList [PyInt 0; PyInt 0; PyInt 0; PyInt 1; PyInt 1; PyInt 1]] /\
    predict (Reference.env []) (PyStr "los angeles jobs") fitted
      = (clf_predict (Reference.env []) (model fitted)
           (PyTuple [features; labels]), fitted) /\
    predict (Reference.env []) (PyStr "los angeles jobs") fitted
      <> (clf_predict (Reference.env []) (model fitted) features, fitted).
Proof.
  do 4 eexists.
  split; [ reflexivity | ].
  split; [ vm_compute; reflexivity | ].
  split; [ vm_compute; reflexivity | ].
  split; [ reflexivity | ].
  split; [ vm_compute; reflexivity | ].
  vm_compute. intro H. discriminate H.
Qed.

(** C6. Two folds over four records of two classes. The records held out
    first are all of class 0 and all predicted as class 0, so their confusion
    matrix is the one by one matrix [[2]]; adding it in place to the two by
    two accumulator adds 2 to each of the four cells. The aggregate is
    [[3,2],[3,2]] and its entries sum to 10, while the two test splits hold
    four records. *)
Theorem single_class_fold_inflates_the_aggregate :
  exists self report self',
    __init__ (PyObj "Constant" []) (PyStr "") (PyInt 1) (PyFloat (Fin 1))
             (PyInt 2) (PyInt 1) true = Ok self /\
    cross_validate (Reference.env Reference.two_folds) Reference.four_records
                   PyNone PyNone (PyInt 2) self = (Ok report, self') /\
    Reference.sk_confusion_matrix (Reference.indices [0; 0])
                                  (Reference.indices [0; 0]) = Ok [[2]] /\
    Reference.sk_confusion_matrix (Reference.indices [0; 1])
                                  (Reference.indices [0; 0])
      = Ok [[1; 0]; [1; 0]] /\
    np_iadd (matrix_of_Z [[0; 0]; [0; 0]]) (matrix_of_Z [[2]])
      = Ok (matrix_of_Z [[2; 2]; [2; 2]]) /\
    confusion report = matrix_of_Z [[3; 2]; [3; 2]] /\
    total (confusion report) = fl_of_Z 10 /\
    total (confusion report) <> fl_of_Z 4.
Proof.
  do 3 eexists.
  split; [ reflexivity | ].
  split; [ vm_compute; reflexivity | ].
  repeat split; try (vm_compute; reflexivity).
  vm_compute. intro H. discriminate H.
Qed.

End JHPLemmas.

(** * Further properties *)

Module NLPExtra.

Import NLPProcessing NLPFacts NLPSpec.

Section WithCollaborators.

Variable E : Collaborators.

(** [_stemlem] computes [stemlem_result] of the mode and the documents; it
    touches nothing of the receiver but the [done_stopwords] flag, which it
    leaves lowered when it returns and raised when it raises. *)
Lemma _stemlem_run text_array self :
  _stemlem E text_array self =
  (stemlem_result E (stemlem self) text_array,
   set_done_stopwords
     (negb (is_ok (stemlem_result E (stemlem self) text_array))) self).
Proof.
  unfold _stemlem, stemlem_result, wordnet_lemmatizer, snowball_stemmatizer,
    porter_stemmatizer, _do_stem_lem, bind, get, modify, call, ret.
  simpl.
  repeat (simpl; rewrite ?andb_false_r; simpl;
          first
            [ match goal with
              | |- context [py_contains E ?a ?b] =>
                  destruct (py_contains E a b) as [[ | ] | ]
              end
            | match goal with
              | |- context [eq_empty_str ?a] => destruct (eq_empty_str a)
              end
            | match goal with
              | |- context [stem_lem_documents E [] ?d ?m ?b] =>
                  destruct (stem_lem_documents E [] d m b)
              end
            | match goal with
              | |- context [py_iter E ?d] => destruct (py_iter E d)
              end ]);
    reflexivity.
Qed.

(** The stem/lemmatize step reads the mode and the documents and nothing
    else: its result is [stemlem_result] of the two, whatever the stop-word
    toggle, the flag and the vectorizer. It changes nothing of the
    receiver but the [done_stopwords] flag, which is lowered after a return
    and left raised after an exception. *)
Theorem stemlem_touches_only_the_flag text_array self :
  fst (_stemlem E text_array self) =
    stemlem_result E (stemlem self) text_array /\
  snd (_stemlem E text_array self) =
    set_done_stopwords (negb (is_ok (fst (_stemlem E text_array self)))) self.
Proof.
  rewrite _stemlem_run. split; reflexivity.
Qed.

Lemma tfidf_vectorize_run training_docs self :
  tfidf_vectorize E training_docs self =
  match sk_fit_vocabulary E (new_tfidf E training_docs self) training_docs with
  | Ok voc =>
      (Ok tt,
       set_vectorize
         (Some (with_vocabulary (new_tfidf E training_docs self) voc)) self)
  | Raise e =>
      (Raise e, set_vectorize (Some (new_tfidf E training_docs self)) self)
  end.
Proof.
  unfold tfidf_vectorize, bind, get, modify, vectorize_fit, vectorizer_fit,
    new_tfidf, vectorizer_stop_words.
  simpl. destruct (sk_fit_vocabulary E _ training_docs); reflexivity.
Qed.

(** [fit] as a whole: which step raised decides the error and what the
    receiver is left with. *)
Lemma fit_run data bucket filename self :
  fit E data bucket filename self =
  match extract E data bucket filename self with
  | Raise e => (Raise e, self)
  | Ok (fit_array, _, _) =>
      match stemlem_result E (stemlem self) fit_array with
      | Raise e => (Raise e, set_done_stopwords true self)
      | Ok docs =>
          tfidf_vectorize E docs (set_done_stopwords false self)
      end
  end.
Proof.
  unfold fit, extract, bind, get, call.
  destruct (exc_bind _ _) as [[[fit_array a] b] | e]; [ | reflexivity ].
  rewrite _stemlem_run.
  destruct (stemlem_result E (stemlem self) fit_array); reflexivity.
Qed.

(** After a [fit] that returned, the preprocessor holds a TF-IDF vectorizer
    (never a count vectorizer) built from its configuration: the stop words
    only in the mode without stemming, the two document-frequency bounds,
    the n-gram range (k, k); its vocabulary is the one scikit-learn learned
    from the stemmed documents, and the [done_stopwords] flag is lowered. *)
Theorem fit_leaves_fitted_tfidf_vectorizer data bucket filename self self' :
  fit E data bucket filename self = (Ok tt, self') ->
  exists docs voc,
    vectorize self' =
      Some (with_vocabulary (new_tfidf E docs self) voc) /\
    sk_fit_vocabulary E (new_tfidf E docs self) docs = Ok voc /\
    (exists fit_array a b,
       extract E data bucket filename self = Ok (fit_array, a, b) /\
       stemlem_result E (stemlem self) fit_array = Ok docs) /\
    done_stopwords self' = false /\
    config self' = config self.
Proof.
  rewrite fit_run. intro H.
  destruct (extract E data bucket filename self) as [[[fit_array a] b] | e];
    [ | discriminate H ].
  destruct (stemlem_result E (stemlem self) fit_array) as [docs | e] eqn:Hs;
    [ | discriminate H ].
  rewrite tfidf_vectorize_run in H.
  change (new_tfidf E docs (set_done_stopwords false self))
    with (new_tfidf E docs self) in H.
  destruct (sk_fit_vocabulary E (new_tfidf E docs self) docs) as [voc | e]
    eqn:Hv; [ | discriminate H ].
  inversion H; subst. exists docs, voc.
  split; [ reflexivity | ]. split; [ assumption | ].
  split; [ exists fit_array, a, b; auto | ].
  split; reflexivity.
Qed.

(** [transform] as a whole. *)
Lemma transform_run data bucket filename self v :
  vectorize self = Some v ->
  transform E data bucket filename self =
  match extract E data bucket filename self with
  | Raise e => (Raise e, self)
  | Ok (_, doc_array, y) =>
      match stemlem_result E (stemlem self) doc_array with
      | Raise e => (Raise e, set_done_stopwords true self)
      | Ok docs =>
          match vectorizer_transform E v docs with
          | Ok x => (Ok (PyTuple [x; y]), set_done_stopwords false self)
          | Raise e => (Raise e, set_done_stopwords false self)
          end
      end
  end.
Proof.
  intro Hv. unfold transform, extract, bind, get, call, ret. rewrite Hv.
  destruct (exc_bind _ _) as [[[a doc_array] y] | e]; [ | reflexivity ].
  rewrite _stemlem_run.
  destruct (stemlem_result E (stemlem self) doc_array); [ | reflexivity ].
  unfold vectorize_transform. simpl. rewrite Hv.
  destruct (vectorizer_transform E v _); reflexivity.
Qed.

(** C4, amended. On a preprocessor that holds no fitted vocabulary every
    call of transform raises and gives no feature matrix. With no
    vectorizer (fresh from the constructor, or after fits that raised before
    one was built) it raises the AttributeError that asks to fit first and
    changes nothing. With a vectorizer whose fit did not complete it raises
    the error of the data extraction or of the stem/lemmatize step when one
    of them raises, and the vectorizer's not-fitted error otherwise. *)
Theorem transform_without_vocabulary_raises data bucket filename self :
  no_vocabulary self ->
  transform E data bucket filename self =
  match vectorize self with
  | None => (Raise (AttributeError must_fit_message), self)
  | Some _ =>
      match extract E data bucket filename self with
      | Raise e => (Raise e, self)
      | Ok (_, doc_array, _) =>
          match stemlem_result E (stemlem self) doc_array with
          | Raise e => (Raise e, set_done_stopwords true self)
          | Ok _ => (Raise NotFittedError, set_done_stopwords false self)
          end
      end
  end.
Proof.
  unfold no_vocabulary. intro Hvoc.
  destruct (vectorize self) as [v | ] eqn:Hv.
  - rewrite (transform_run data bucket filename self v Hv).
    destruct (extract E data bucket filename self) as [[[a doc_array] y] | e];
      [ | reflexivity ].
    destruct (stemlem_result E (stemlem self) doc_array) as [docs | e];
      [ | reflexivity ].
    unfold vectorizer_transform. now rewrite Hvoc.
  - unfold transform, bind, get, raise. now rewrite Hv.
Qed.

(** [transform] never fits: whether it returns or raises, the vectorizer,
    and with it the vocabulary, and the configuration are as before. *)
Theorem transform_keeps_vectorizer data bucket filename self :
  vectorize (snd (transform E data bucket filename self)) = vectorize self /\
  config (snd (transform E data bucket filename self)) = config self.
Proof.
  destruct (vectorize self) as [v | ] eqn:Hv.
  - rewrite (transform_run data bucket filename self v Hv).
    destruct (extract E data bucket filename self) as [[[a doc_array] y] | e];
      [ | auto ].
    destruct (stemlem_result E (stemlem self) doc_array); [ | auto ].
    destruct (vectorizer_transform E v _); auto.
  - unfold transform, bind, get, raise. rewrite Hv. auto.
Qed.

(** [fit_transform] is [fit] followed by [transform] on the same data: the
    same result, the same error when either raises, the same receiver. *)
Theorem fit_transform_is_fit_then_transform data bucket filename self :
  fit_transform E data bucket filename self =
  bind (fit E data bucket filename)
       (fun _ => transform E data bucket filename) self.
Proof.
  unfold bind at 1. rewrite fit_run.
  unfold fit_transform, extract, bind, get, call, ret.
  destruct (exc_bind _ _) as [[[fit_array doc_array] y] | e] eqn:Hx;
    [ | reflexivity ].
  rewrite _stemlem_run.
  destruct (stemlem_result E (stemlem self) fit_array) as [docs | e];
    [ | reflexivity ].
  cbn [is_ok negb fst snd]. rewrite !tfidf_vectorize_run.
  destruct (sk_fit_vocabulary E _ docs) as [voc | e]; [ | reflexivity ].
  rewrite _stemlem_run.
  erewrite transform_run by reflexivity.
  unfold extract.
  cbn [num_cities stemlem set_vectorize set_done_stopwords]. rewrite Hx.
  destruct (stemlem_result E (stemlem self) doc_array); [ | reflexivity ].
  unfold vectorize_transform. cbn [is_ok negb vectorize set_vectorize
                                   set_done_stopwords].
  destruct (vectorizer_transform E _ _); reflexivity.
Qed.

(** Fitting again starts afresh: a [fit] that returns gives the same
    preprocessor whatever vectorizer, fitted or not, the preprocessor held
    before. *)
Theorem fit_ignores_previous_vectorizer data bucket filename self old :
  is_ok (fst (fit E data bucket filename self)) = true ->
  fit E data bucket filename (set_vectorize old self) =
  fit E data bucket filename self.
Proof.
  rewrite !fit_run. unfold extract. simpl.
  destruct (exc_bind _ _) as [[[fit_array a] b] | e]; simpl;
    [ | discriminate ].
  destruct (stemlem_result E (stemlem self) fit_array) as [docs | e]; simpl;
    [ | discriminate ].
  rewrite !tfidf_vectorize_run.
  change (new_tfidf E docs (set_done_stopwords false (set_vectorize old self)))
    with (new_tfidf E docs (set_done_stopwords false self)).
  destruct (sk_fit_vocabulary E _ docs); simpl;
    [ reflexivity | discriminate ].
Qed.

Lemma transform_keeps_but_flag data bucket filename :
  keeps but_flag (transform E data bucket filename).
Proof.
  unfold transform. keeps_auto;
    auto using NLPLemmas._stemlem_keeps_but_flag,
               NLPLemmas.vectorize_transform_keeps.
Qed.

Lemma fit_transform_ok data bucket filename self v self' :
  fit_transform E data bucket filename self = (Ok v, self') ->
  exists docs voc x y,
    vectorize self' = Some (with_vocabulary (new_tfidf E docs self) voc) /\
    v = PyTuple [x; y] /\
    config self' = config self.
Proof.
  unfold fit_transform, bind, get, call, ret.
  destruct (exc_bind _ _) as [[[fit_array doc_array] y] | e];
    [ | discriminate ].
  rewrite _stemlem_run.
  destruct (stemlem_result E (stemlem self) fit_array) as [docs | e];
    [ | discriminate ].
  cbn [is_ok negb]. rewrite tfidf_vectorize_run.
  change (new_tfidf E docs (set_done_stopwords false self))
    with (new_tfidf E docs self).
  destruct (sk_fit_vocabulary E _ docs) as [voc | e]; [ | discriminate ].
  rewrite _stemlem_run.
  cbn [stemlem set_vectorize set_done_stopwords].
  destruct (stemlem_result E (stemlem self) doc_array) as [docs' | e];
    [ | discriminate ].
  unfold vectorize_transform.
  cbn [is_ok negb vectorize set_vectorize set_done_stopwords].
  destruct (vectorizer_transform E _ docs') as [x | e]; [ | discriminate ].
  intro H. inversion H; subst. exists docs, voc, x, y.
  repeat split; reflexivity.
Qed.

End WithCollaborators.

(** C4, amended, at a preprocessor whose vectorizer has no vocabulary. *)
Lemma transform_without_vocabulary_raises_witness :
  no_vocabulary
    (plain (Some (new_tfidf (Reference.env []) PyNone (plain None)))) /\
  transform (Reference.env []) Reference.three_documents PyNone PyNone
    (plain (Some (new_tfidf (Reference.env []) PyNone (plain None)))) =
  (Raise NotFittedError,
   plain (Some (new_tfidf (Reference.env []) PyNone (plain None)))).
Proof.
  assert (no_vocabulary
            (plain (Some (new_tfidf (Reference.env []) PyNone (plain None)))))
    as H by reflexivity.
  split; [ exact H | ].
  exact (transform_without_vocabulary_raises (Reference.env [])
           Reference.three_documents PyNone PyNone _ H).
Defined.

(** C4, as stated, fails. A fit_transform of a fresh preprocessor that
    raises in its second stem/lemmatize step, after the vocabulary was
    fitted, leaves a preprocessor on which no fit or fit_transform has
    succeeded; transform returns a feature matrix on it. *)
Lemma failed_fit_transform_leaves_fitted_preprocessor :
  exists failed,
    __init__ (PyStr "") (PyInt 1) (PyFloat (Fin 1)) (PyInt 2) (PyInt 1) true
      = Ok (plain None) /\
    fit_transform (Reference.env []) broken_documents PyNone PyNone
      (plain None) = (Raise TypeError, failed) /\
    never_fitted (Reference.env []) failed /\
    fst (transform (Reference.env []) Reference.three_documents PyNone PyNone
           failed)
    = Ok (PyTuple [PyList [PyList [PyInt 1]; PyList [PyInt 1]; PyList [PyInt 1]];
                   PyList [PyInt 0; PyInt 0; PyInt 1]]).
Proof.
  eexists.
  split; [ reflexivity | ].
  assert (fit_transform (Reference.env []) broken_documents PyNone PyNone
            (plain None) =
          (Raise TypeError,
           mk PyNone (PyStr "") (PyInt 1) (PyFloat (Fin 1)) (PyInt 2)
              (Some (with_vocabulary
                       (new_tfidf (Reference.env []) (PyList [PyStr "jobs"])
                                  (plain None))
                       ["jobs"]))
              (PyInt 1) true true)) as Hrun by (vm_compute; reflexivity).
  split; [ exact Hrun | ].
  split.
  - eapply fit_transform_raised; [ | exact Hrun ].
    apply (fresh _ (PyStr "") (PyInt 1) (PyFloat (Fin 1)) (PyInt 2) (PyInt 1)
                 true).
    reflexivity.
  - vm_compute. reflexivity.
Qed.

(** A fit of the adverts with the Porter stemmer. *)
Lemma fit_leaves_fitted_tfidf_vectorizer_witness :
  exists self',
    fit (Reference.env []) Reference.adverts PyNone PyNone
      (mk PyNone (PyStr "porter") (PyInt 1) (PyFloat (Fin 1)) (PyInt 2) None
          (PyInt 1) true false) = (Ok tt, self') /\
    exists docs voc,
      vectorize self' =
        Some (with_vocabulary
                (new_tfidf (Reference.env []) docs
                   (mk PyNone (PyStr "porter") (PyInt 1) (PyFloat (Fin 1))
                       (PyInt 2) None (PyInt 1) true false)) voc) /\
      sk_fit_vocabulary (Reference.env [])
        (new_tfidf (Reference.env []) docs
           (mk PyNone (PyStr "porter") (PyInt 1) (PyFloat (Fin 1)) (PyInt 2)
               None (PyInt 1) true false)) docs = Ok voc /\
      (exists fit_array a b,
         extract (Reference.env []) Reference.adverts PyNone PyNone
           (mk PyNone (PyStr "porter") (PyInt 1) (PyFloat (Fin 1)) (PyInt 2)
               None (PyInt 1) true false) = Ok (fit_array, a, b) /\
         stemlem_result (Reference.env []) (PyStr "porter") fit_array
           = Ok docs) /\
      done_stopwords self' = false /\
      config self' =
        config (mk PyNone (PyStr "porter") (PyInt 1) (PyFloat (Fin 1))
                   (PyInt 2) None (PyInt 1) true false).
Proof.
  eexists. split; [ vm_compute; reflexivity | ].
  eapply (fit_leaves_fitted_tfidf_vectorizer (Reference.env [])
            Reference.adverts PyNone PyNone
            (mk PyNone (PyStr "porter") (PyInt 1) (PyFloat (Fin 1)) (PyInt 2)
                None (PyInt 1) true false)).
  vm_compute. reflexivity.
Defined.

(** A second fit of a preprocessor that was fitted on other documents. *)
Lemma fit_ignores_previous_vectorizer_witness :
  is_ok (fst (fit (Reference.env []) Reference.adverts PyNone PyNone
                (mk PyNone (PyStr "") (PyInt 1) (PyFloat (Fin 1)) (PyInt 2)
                    None (PyInt 1) true false))) = true /\
  fit (Reference.env []) Reference.adverts PyNone PyNone
    (set_vectorize
       (Some (mkVectorizer CountVectorizer PyNone [] (PyInt 1) (PyInt 1) None
                           (Some ["jobs"])))
       (mk PyNone (PyStr "") (PyInt 1) (PyFloat (Fin 1)) (PyInt 2) None
           (PyInt 1) true false)) =
  fit (Reference.env []) Reference.adverts PyNone PyNone
    (mk PyNone (PyStr "") (PyInt 1) (PyFloat (Fin 1)) (PyInt 2) None (PyInt 1)
        true false).
Proof.
  assert (is_ok (fst (fit (Reference.env []) Reference.adverts PyNone PyNone
                        (mk PyNone (PyStr "") (PyInt 1) (PyFloat (Fin 1))
                            (PyInt 2) None (PyInt 1) true false))) = true)
    as H by (vm_compute; reflexivity).
  split; [ exact H | ].
  exact (fit_ignores_previous_vectorizer (Reference.env []) Reference.adverts
           PyNone PyNone _ _ H).
Defined.

End NLPExtra.

Module JHPExtra.

Import JHPModel JHPFacts.

Section WithCollaborators.

Variable E : Collaborators.

Lemma set_processing_same self : set_processing (processing self) self = self.
Proof. destruct self; reflexivity. Qed.

(** [predict] on a pipeline whose preprocessor has no vectorizer raises the
    AttributeError that asks to fit first; the classifier is not called and
    the pipeline is left as it was. *)
Theorem predict_before_fit_raises testing self :
  NLPProcessing.vectorize (processing self) = None ->
  predict E testing self =
  (Raise (AttributeError NLPProcessing.must_fit_message), self).
Proof.
  intro Hv.
  unfold predict, on_processing, NLPProcessing.transform, bind, get, raise.
  cbv beta iota zeta. rewrite Hv. cbv beta iota.
  now rewrite set_processing_same.
Qed.

(** [predict] changes neither the classifier nor the class count, and of the
    preprocessor neither the vectorizer (so the vocabulary) nor the
    configuration, whether it returns or raises. *)
Theorem predict_keeps_classifier_and_vocabulary testing self :
  model (snd (predict E testing self)) = model self /\
  classes (snd (predict E testing self)) = classes self /\
  NLPProcessing.vectorize (processing (snd (predict E testing self))) =
    NLPProcessing.vectorize (processing self) /\
  NLPFacts.config (processing (snd (predict E testing self))) =
    NLPFacts.config (processing self).
Proof.
  unfold predict, bind, on_processing, get, call.
  pose proof (NLPExtra.transform_keeps_but_flag E
                (if isinstance_str testing then PyList [testing] else testing)
                PyNone PyNone (processing self)) as Hk.
  destruct (NLPProcessing.transform E _ PyNone PyNone (processing self))
    as [[v | e] p]; cbn [snd fst] in Hk |- *;
    unfold NLPFacts.but_flag, NLPFacts.config in Hk |- *;
    injection Hk as Hk1 Hk2 Hk3 Hk4 Hk5 Hk6 Hk7 Hk8;
    cbn [snd model classes processing set_processing];
    repeat split; congruence.
Qed.

(** A [fit] that returned went through these steps, each on the result of
    the one before: the data given, or the imported file when none is given,
    is made into model data; the preprocessor's [fit_transform] on the model
    data returns a pair and leaves a TF-IDF vectorizer with a vocabulary;
    the classifier is fitted on that pair and on the label column of the
    same model data. The pipeline is left with this preprocessor, this
    classifier and the class count it had. *)
Theorem fit_fits_vocabulary_then_classifier training bucket filename self self' :
  fit E training bucket filename self = (Ok tt, self') ->
  exists df0 df x y labels fitted_processing fitted_model,
    JHPSpec.data_or_import E training bucket filename = Ok df0 /\
    create_model_data E df0 None None (classes self) = Ok df /\
    NLPProcessing.fit_transform E df PyNone PyNone (processing self)
      = (Ok (PyTuple [x; y]), fitted_processing) /\
    _get_labels E df = Ok labels /\
    clf_fit E (model self) (PyTuple [x; y]) labels = Ok fitted_model /\
    self' = mk fitted_processing fitted_model (classes self) /\
    exists v voc,
      NLPProcessing.vectorize fitted_processing = Some v /\
      vz_kind v = TfidfVectorizer /\
      vz_vocabulary v = Some voc.
Proof.
  intro H. unfold fit in H.
  apply bind_ok in H as (df0 & s1 & Hdf0 & H).
  apply bind_ok in H as (self0 & s2 & Hget & H).
  apply bind_ok in H as (df & s3 & Hdf & H).
  apply bind_ok in H as (features & s4 & Hft & H).
  apply bind_ok in H as (labels & s5 & Hl & H).
  apply JHPLemmas.data_or_import_ok in Hdf0 as [Hdf0 ->].
  unfold get in Hget. inversion Hget; subst self0 s2.
  apply call_ok in Hdf as [Hdf ->]. apply call_ok in Hl as [Hl ->].
  unfold on_processing in Hft.
  destruct (NLPProcessing.fit_transform E df PyNone PyNone (processing self))
    as [r p] eqn:Hrun.
  inversion Hft; subst r s4.
  pose proof (NLPExtra.fit_transform_ok E _ _ _ _ _ _ Hrun)
    as (docs & voc & x & y & Hv & -> & _).
  unfold model_fit in H. cbn [model set_processing processing classes] in H.
  destruct (clf_fit E (model self) (PyTuple [x; y]) labels) as [m | e] eqn:Hm;
    inversion H; subst.
  exists df0, df, x, y, labels, p, m.
  do 5 (split; [ assumption || reflexivity | ]).
  split; [ destruct self; reflexivity | ].
  exists (with_vocabulary (NLPSpec.new_tfidf E docs (processing self)) voc), voc.
  rewrite Hv. repeat split; reflexivity.
Qed.

(** A [cross_validate] that returned has run the folds of the split in
    order, each pass fitting the pipeline on the training rows of the data
    and asking the classifier so fitted for the score of the held-out rows;
    there is one score per fold, the accuracy it prints is the mean of these
    scores, and the score lines it prints are those of the aggregate
    confusion matrix. *)
Theorem cross_validate_reports_mean_of_fold_scores
    data bucket filename n_splits self report self' :
  cross_validate E data bucket filename n_splits self = (Ok report, self') ->
  exists kf df folds scores cms,
    KFold E n_splits = Ok kf /\
    JHPSpec.data_or_import E data bucket filename = Ok df /\
    kf_split E kf df = Ok folds /\
    JHPSpec.folds_run E df folds self scores cms self' /\
    List.length scores = List.length folds /\
    accuracy report = np_mean scores /\
    _get_scores (confusion report) = Ok (lines report).
Proof.
  intro H.
  apply JHPLemmas.cross_validate_run in H
    as (kf & df & zeros & folds & scores & cms
        & Hkf & Hdf & _ & Hsplit & Hrun & _ & Hacc & Hlines).
  exists kf, df, folds, scores, cms.
  do 4 (split; [ assumption | ]).
  split; [ now apply (JHPLemmas.folds_run_lengths E) in Hrun | ].
  split; assumption.
Qed.

(** A negative class count is found out only when [cross_validate] builds
    its accumulator: the call raises ValueError before any fold is run and
    leaves the pipeline as it was. *)
Theorem cross_validate_rejects_negative_class_count
    data bucket filename n_splits self kf c :
  KFold E n_splits = Ok kf ->
  is_None data = false ->
  classes self = PyInt c ->
  c < 0 ->
  cross_validate E data bucket filename n_splits self
    = (Raise ValueError, self).
Proof.
  intros Hkf Hdata Hc Hneg.
  unfold cross_validate, bind, call, get, ret.
  rewrite Hkf, Hdata, Hc. unfold np_zeros.
  destruct (Z.ltb_spec c 0); [ reflexivity | lia ].
Qed.

End WithCollaborators.

(** The run of [predict] on a pipeline fresh from its constructor. *)
Lemma predict_before_fit_raises_witness :
  NLPProcessing.vectorize
    (processing (JHPSpec.fresh_pipeline "Echo" 2)) = None /\
  predict (Reference.env []) (PyStr "jobs")
    (JHPSpec.fresh_pipeline "Echo" 2) =
  (Raise (AttributeError NLPProcessing.must_fit_message),
   JHPSpec.fresh_pipeline "Echo" 2).
Proof.
  split; [ reflexivity | ].
  exact (predict_before_fit_raises (Reference.env []) (PyStr "jobs")
           (JHPSpec.fresh_pipeline "Echo" 2) eq_refl).
Defined.

(** A fit of the scenario's three documents. *)
Lemma fit_fits_vocabulary_then_classifier_witness :
  exists self',
    fit (Reference.env []) Reference.three_documents PyNone PyNone
      (JHPSpec.fresh_pipeline "Constant" 2) = (Ok tt, self') /\
    exists df0 df x y labels fitted_processing fitted_model,
      JHPSpec.data_or_import (Reference.env []) Reference.three_documents
        PyNone PyNone = Ok df0 /\
      create_model_data (Reference.env []) df0 None None
        (classes (JHPSpec.fresh_pipeline "Constant" 2)) = Ok df /\
      NLPProcessing.fit_transform (Reference.env []) df PyNone PyNone
        (processing (JHPSpec.fresh_pipeline "Constant" 2))
        = (Ok (PyTuple [x; y]), fitted_processing) /\
      _get_labels (Reference.env []) df = Ok labels /\
      clf_fit (Reference.env [])
        (model (JHPSpec.fresh_pipeline "Constant" 2)) (PyTuple [x; y]) labels
        = Ok fitted_model /\
      self' = mk fitted_processing fitted_model
                (classes (JHPSpec.fresh_pipeline "Constant" 2)) /\
      exists v voc,
        NLPProcessing.vectorize fitted_processing = Some v /\
        vz_kind v = TfidfVectorizer /\
        vz_vocabulary v = Some voc.
Proof.
  eexists. split; [ vm_compute; reflexivity | ].
  eapply (fit_fits_vocabulary_then_classifier (Reference.env [])
            Reference.three_documents PyNone PyNone
            (JHPSpec.fresh_pipeline "Constant" 2)).
  vm_compute. reflexivity.
Defined.

(** A two-fold run over the balanced records. *)
Lemma cross_validate_reports_mean_of_fold_scores_witness :
  exists report self',
    cross_validate (Reference.env Reference.two_folds)
      JHPSpec.balanced_records PyNone PyNone (PyInt 2)
      (JHPSpec.fresh_pipeline "Constant" 2) = (Ok report, self') /\
    exists kf df folds scores cms,
      KFold (Reference.env Reference.two_folds) (PyInt 2) = Ok kf /\
      JHPSpec.data_or_import (Reference.env Reference.two_folds)
        JHPSpec.balanced_records PyNone PyNone = Ok df /\
      kf_split (Reference.env Reference.two_folds) kf df = Ok folds /\
      JHPSpec.folds_run (Reference.env Reference.two_folds) df folds
        (JHPSpec.fresh_pipeline "Constant" 2) scores cms self' /\
      List.length scores = List.length folds /\
      accuracy report = np_mean scores /\
      _get_scores (confusion report) = Ok (lines report).
Proof.
  do 2 eexists. split; [ vm_compute; reflexivity | ].
  eapply (cross_validate_reports_mean_of_fold_scores
            (Reference.env Reference.two_folds) JHPSpec.balanced_records
            PyNone PyNone (PyInt 2) (JHPSpec.fresh_pipeline "Constant" 2)).
  vm_compute. reflexivity.
Defined.

(** The same run: both fold matrices are two by two. *)
Lemma aggregate_of_full_fold_matrices_witness :
  exists report self',
    cross_validate (Reference.env Reference.two_folds)
      JHPSpec.balanced_records PyNone PyNone (PyInt 2)
      (JHPSpec.fresh_pipeline "Constant" 2) = (Ok report, self') /\
    exists kf df folds scores cms zeros,
      KFold (Reference.env Reference.two_folds) (PyInt 2) = Ok kf /\
      JHPSpec.data_or_import (Reference.env Reference.two_folds)
        JHPSpec.balanced_records PyNone PyNone = Ok df /\
      kf_split (Reference.env Reference.two_folds) kf df = Ok folds /\
      JHPSpec.folds_run (Reference.env Reference.two_folds) df folds
        (JHPSpec.fresh_pipeline "Constant" 2) scores cms self' /\
      np_zeros (PyInt (Z.of_nat 2)) (PyInt (Z.of_nat 2)) = Ok zeros /\
      add_all zeros (map matrix_of_Z cms) = Ok (confusion report) /\
      (Forall (fun cm => square 2 (matrix_of_Z cm)) cms ->
       square 2 (confusion report) /\
       exists s, total (confusion report) = Fin s /\
                 (s == Qsum (map (fun cm => qtotal (matrix_of_Z cm)) cms))%Q).
Proof.
  do 2 eexists. split; [ vm_compute; reflexivity | ].
  eapply (JHPLemmas.aggregate_of_full_fold_matrices
            (Reference.env Reference.two_folds) JHPSpec.balanced_records
            PyNone PyNone (PyInt 2) (JHPSpec.fresh_pipeline "Constant" 2)
            _ _ 2%nat).
  - reflexivity.
  - vm_compute. reflexivity.
Defined.

(** A pipeline built with a class count of minus one. *)
Lemma cross_validate_rejects_negative_class_count_witness :
  KFold (Reference.env []) (PyInt 2) = Ok (PyObj "KFold" [PyInt 2]) /\
  is_None Reference.four_records = false /\
  classes (JHPSpec.fresh_pipeline "Constant" (-1)) = PyInt (-1) /\
  -1 < 0 /\
  cross_validate (Reference.env []) Reference.four_records PyNone PyNone
    (PyInt 2)
    (JHPSpec.fresh_pipeline "Constant" (-1))
  = (Raise ValueError, JHPSpec.fresh_pipeline "Constant" (-1)).
Proof.
  assert (-1 < 0) as Hneg by lia.
  split; [ reflexivity | ]. split; [ reflexivity | ].
  split; [ reflexivity | ]. split; [ exact Hneg | ].
  exact (cross_validate_rejects_negative_class_count (Reference.env [])
           Reference.four_records PyNone PyNone (PyInt 2)
           (JHPSpec.fresh_pipeline "Constant" (-1)) (PyObj "KFold" [PyInt 2])
           (-1) eq_refl eq_refl eq_refl Hneg).
Defined.

End JHPExtra.

Module ScoreExtra.

Import JHPModel JHPFacts JHPSpec.

(** On an [n] by [n] array [_get_scores] raises nothing and prints [n]
    lines, one per class in class order; the line of class [i] shows the
    diagonal entry over the sum of row [i] as precision, over the sum of
    column [i] as recall, and 2 / (1/precision + 1/recall) as F1. *)
Theorem scores_of_square_matrix n m :
  square n m ->
  exists lines,
    _get_scores m = Ok lines /\
    List.length lines = n /\
    forall i, (i < n)%nat -> nth_error lines i = Some (score_line_of m i).
Proof.
  intro Hsq. exists (map (score_line_of m) (seq 0 n)).
  split; [ now apply JHPLemmas.get_scores_square | ].
  split; [ now rewrite length_map, length_seq | ].
  intros i Hi. now apply nth_error_map_seq.
Qed.

Lemma scores_of_square_matrix_witness :
  square 2 (matrix_of_Z [[8; 2]; [1; 9]]) /\
  exists lines,
    _get_scores (matrix_of_Z [[8; 2]; [1; 9]]) = Ok lines /\
    List.length lines = 2%nat /\
    forall i, (i < 2)%nat ->
      nth_error lines i = Some (score_line_of (matrix_of_Z [[8; 2]; [1; 9]]) i).
Proof.
  assert (square 2 (matrix_of_Z [[8; 2]; [1; 9]])) as H
    by (split; [ reflexivity | repeat constructor ]).
  split; [ exact H | ].
  exact (scores_of_square_matrix 2 _ H).
Defined.

Lemma np_zip1_mismatch (op : fl -> fl -> fl) (a b : list fl) :
  List.length a <> List.length b ->
  (2 <= List.length a)%nat -> (2 <= List.length b)%nat ->
  np_zip1 op a b = Raise ValueError.
Proof.
  intros Hneq Ha Hb. unfold np_zip1.
  destruct (Nat.eqb_spec (List.length a) (List.length b)); [ contradiction | ].
  destruct a as [ | x [ | x' a ] ]; simpl in Ha; try lia.
  destruct b as [ | y [ | y' b ] ]; simpl in Hb; try lia.
  reflexivity.
Qed.

Lemma rectangular_ncols r c m :
  rectangular r c m -> (0 < r)%nat -> ncols m = c.
Proof.
  intros [Hrows Hall] Hr. unfold nrows in Hrows.
  destruct m as [ | row rest ]; simpl in *; [ lia | now inversion Hall ].
Qed.

(** An array with at least two rows and two columns that is not square
    makes [_get_scores] raise ValueError: the diagonal does not have the
    length of the row sums or of the column sums. *)
Theorem scores_of_non_square_matrix_raise r c m :
  rectangular r c m -> r <> c -> (2 <= r)%nat -> (2 <= c)%nat ->
  _get_scores m = Raise ValueError.
Proof.
  intros Hrect Hneq Hr Hc.
  pose proof (rectangular_ncols r c m Hrect ltac:(lia)) as Hcols.
  destruct Hrect as [Hrows _]. unfold nrows in Hrows.
  assert (List.length (np_diag m) = Nat.min r c) as Hd.
  { unfold np_diag, nrows. now rewrite length_map, length_seq, Hrows, Hcols. }
  assert (List.length (sum_axis1 m) = r) as H1.
  { unfold sum_axis1. now rewrite length_map. }
  assert (List.length (sum_axis0 m) = c) as H0.
  { unfold sum_axis0. now rewrite length_map, length_seq, Hcols. }
  unfold _get_scores.
  destruct (Nat.lt_ge_cases r c) as [Hlt | Hge].
  - assert (np_zip1 fdiv (np_diag m) (sum_axis1 m) =
            Ok (map (fun p => fdiv (fst p) (snd p))
                    (combine (np_diag m) (sum_axis1 m)))) as ->.
    { unfold np_zip1. rewrite Hd, H1, Nat.min_l by lia.
      now rewrite Nat.eqb_refl. }
    cbn [exc_bind].
    rewrite (np_zip1_mismatch fdiv (np_diag m) (sum_axis0 m)); [ reflexivity | .. ];
      rewrite ?Hd, ?H0; lia.
  - rewrite (np_zip1_mismatch fdiv (np_diag m) (sum_axis1 m)); [ reflexivity | .. ];
      rewrite ?Hd, ?H1; lia.
Qed.

Lemma scores_of_non_square_matrix_raise_witness :
  rectangular 2 3 (matrix_of_Z [[8; 2; 0]; [1; 9; 0]]) /\
  2%nat <> 3%nat /\ (2 <= 2)%nat /\ (2 <= 3)%nat /\
  _get_scores (matrix_of_Z [[8; 2; 0]; [1; 9; 0]]) = Raise ValueError.
Proof.
  assert (rectangular 2 3 (matrix_of_Z [[8; 2; 0]; [1; 9; 0]])) as H
    by (split; [ reflexivity | repeat constructor ]).
  assert (2%nat <> 3%nat) as Hneq by discriminate.
  assert (2 <= 2)%nat as Hr by lia.
  assert (2 <= 3)%nat as Hc by lia.
  split; [ exact H | ]. split; [ exact Hneq | ].
  split; [ exact Hr | ]. split; [ exact Hc | ].
  exact (scores_of_non_square_matrix_raise 2 3 _ H Hneq Hr Hc).
Defined.

Lemma fadd_comm (a b : fl) : fadd a b = fadd b a.
Proof.
  destruct a as [x | | | ], b as [y | | | ]; try reflexivity.
  unfold fadd. f_equal. apply Qred_complete. ring.
Qed.

Lemma transpose_square n m : square n (transpose n m).
Proof.
  unfold square, transpose, nrows. split.
  - now rewrite length_map, length_seq.
  - apply Forall_forall. intros row Hrow. apply in_map_iff in Hrow.
    destruct Hrow as (j & <- & _). now rewrite length_map, length_seq.
Qed.

Lemma transpose_row n m i :
  square n m -> (i < n)%nat ->
  nth i (transpose n m) [] = map (fun row => nth i row (Fin 0)) m.
Proof.
  intros Hsq Hi. unfold transpose.
  rewrite (nth_indep _ [] (map (fun i0 => cell m i0 0) (seq 0 n)))
    by (now rewrite length_map, length_seq).
  rewrite (map_nth (fun j => map (fun i0 => cell m i0 j) (seq 0 n))).
  rewrite seq_nth by assumption. simpl.
  destruct Hsq as [Hrows _]. unfold nrows in Hrows.
  symmetry.
  transitivity (map (fun row => nth i row (Fin 0))
                    (map (fun k => nth k m []) (seq 0 n))).
  - f_equal. rewrite <- Hrows. apply list_as_map_nth.
  - rewrite map_map. reflexivity.
Qed.

Lemma transpose_cell n m i j :
  (i < n)%nat -> (j < n)%nat -> cell (transpose n m) i j = cell m j i.
Proof.
  intros Hi Hj. unfold transpose, cell at 1.
  rewrite (nth_indep _ [] (map (fun i0 => cell m i0 0) (seq 0 n)))
    by (now rewrite length_map, length_seq).
  rewrite (map_nth (fun j0 => map (fun i0 => cell m i0 j0) (seq 0 n))).
  rewrite seq_nth by assumption. simpl.
  rewrite (nth_indep _ (Fin 0) (cell m 0 i))
    by (now rewrite length_map, length_seq).
  rewrite (map_nth (fun i0 => cell m i0 i)).
  now rewrite seq_nth by assumption.
Qed.

Lemma transpose_column n m i :
  square n m -> (i < n)%nat ->
  map (fun row => nth i row (Fin 0)) (transpose n m) = nth i m [].
Proof.
  intros Hsq Hi.
  pose proof (JHPLemmas.square_row_length n m i Hsq Hi) as Hlen.
  unfold transpose. rewrite map_map. symmetry.
  transitivity (map (fun j => nth j (nth i m []) (Fin 0)) (seq 0 n)).
  - rewrite <- Hlen. apply list_as_map_nth.
  - apply map_ext_in. intros j Hj. apply in_seq in Hj.
    rewrite (nth_indep (map _ (seq 0 n)) (Fin 0) (cell m 0 j))
      by (now rewrite length_map, length_seq).
    rewrite (map_nth (fun i0 => cell m i0 j)).
    now rewrite seq_nth by assumption.
Qed.

(** Transposing a square array exchanges the precision and the recall that
    [_get_scores] prints for every class and leaves F1 as it is. *)
Theorem scores_of_transpose_swap_precision_and_recall n m :
  square n m ->
  exists lines,
    _get_scores m = Ok lines /\
    _get_scores (transpose n m) = Ok (map swap_line lines).
Proof.
  intro Hsq. exists (map (score_line_of m) (seq 0 n)).
  split; [ now apply JHPLemmas.get_scores_square | ].
  rewrite (JHPLemmas.get_scores_square n _ (transpose_square n m)).
  f_equal. rewrite map_map. apply map_ext_in. intros i Hi.
  apply in_seq in Hi. destruct Hi as [_ Hi]. simpl in Hi.
  unfold score_line_of, swap_line.
  cbn [line_class line_precision line_recall line_F1].
  rewrite (transpose_cell n m i i Hi Hi).
  rewrite (transpose_row n m i Hsq Hi).
  rewrite (transpose_column n m i Hsq Hi).
  f_equal. f_equal. apply fadd_comm.
Qed.

Lemma scores_of_transpose_swap_precision_and_recall_witness :
  square 2 (matrix_of_Z [[8; 2]; [1; 9]]) /\
  exists lines,
    _get_scores (matrix_of_Z [[8; 2]; [1; 9]]) = Ok lines /\
    _get_scores (transpose 2 (matrix_of_Z [[8; 2]; [1; 9]]))
      = Ok (map swap_line lines).
Proof.
  assert (square 2 (matrix_of_Z [[8; 2]; [1; 9]])) as H
    by (split; [ reflexivity | repeat constructor ]).
  split; [ exact H | ].
  exact (scores_of_transpose_swap_precision_and_recall 2 _ H).
Defined.

End ScoreExtra.

Module StemExtra.

Import NLPProcessing NLPFacts NLPSpec.

Lemma append_empty_r (s : string) : (s ++ "")%string = s.
Proof. induction s as [ | c s IH ]; simpl; [ reflexivity | now rewrite IH ]. Qed.

Lemma append_assoc (a b c : string) :
  ((a ++ b) ++ c)%string = (a ++ (b ++ c))%string.
Proof. induction a as [ | x a IH ]; simpl; [ reflexivity | now rewrite IH ]. Qed.

Lemma split_space_acc_not_nil (text cur : string) :
  split_space_acc cur text <> [].
Proof.
  revert cur. induction text as [ | c rest IH ]; intro cur; simpl.
  - discriminate.
  - destruct (Ascii.eqb c " "); [ discriminate | apply IH ].
Qed.

Lemma join_split_acc (text cur : string) :
  join_space (split_space_acc cur text) = (cur ++ text)%string.
Proof.
  unfold join_space. revert cur.
  induction text as [ | c rest IH ]; intro cur; simpl.
  - now rewrite append_empty_r.
  - destruct (Ascii.eqb_spec c " ") as [-> | Hc].
    + pose proof (IH "") as Hrest. simpl in Hrest.
      destruct (split_space_acc "" rest) as [ | w ws ] eqn:Hs.
      * now apply split_space_acc_not_nil in Hs.
      * change (String.concat " " (cur :: w :: ws))
          with (cur ++ " " ++ String.concat " " (w :: ws))%string.
        now rewrite Hrest.
    + rewrite IH, append_assoc. reflexivity.
Qed.

(** Joining with single spaces what [split(" ")] gave is the document again,
    runs of spaces included. *)
Lemma join_split (text : string) : join_space (split_space text) = text.
Proof. unfold split_space. now rewrite join_split_acc. Qed.

Lemma map_exc_id {A} (f : A -> exc A) (l : list A) :
  (forall x, In x l -> f x = Ok x) -> map_exc f l = Ok l.
Proof.
  intro H. rewrite (map_exc_ok f (fun x => x)) by assumption.
  now rewrite map_id.
Qed.

Lemma filter_no_stop_words (words : list string) :
  filter (fun word => negb (in_set word [])) words = words.
Proof.
  induction words as [ | w rest IH ]; [ reflexivity | ].
  change (w :: filter (fun word => negb (in_set word [])) rest = w :: rest).
  now rewrite IH.
Qed.

Lemma map_exc_length {A B} (f : A -> exc B) (l : list A) (l' : list B) :
  map_exc f l = Ok l' -> List.length l' = List.length l.
Proof.
  revert l'. induction l as [ | x rest IH ]; intros l' H; simpl in H.
  - now inversion H.
  - destruct (f x) as [y | e]; [ | discriminate H ]. simpl in H.
    destruct (map_exc f rest) as [ys | e]; [ | discriminate H ].
    inversion H; subst. simpl. now rewrite (IH ys).
Qed.

Section WithCollaborators.

Variable E : Collaborators.

(** With no stop word to remove and a lemmatizer that leaves every word of
    the documents as it is, the lemmatizing pass gives the documents back
    unchanged: splitting at single spaces and joining with single spaces
    loses nothing, not even repeated or leading spaces. *)
Theorem lemmatizing_known_words_keeps_documents (docs : list string) :
  (forall doc word, In doc docs -> In word (split_space doc) ->
     wordnet_lemmatize E word = word) ->
  stem_lem_documents E [] (PyList (map PyStr docs)) WordNetLemmatizer false
  = Ok (PyList (map PyStr docs)).
Proof.
  intro Hfix. unfold stem_lem_documents. simpl.
  rewrite (map_exc_id _ (map PyStr docs)); [ reflexivity | ].
  intros text Htext. apply in_map_iff in Htext.
  destruct Htext as (doc & <- & Hdoc).
  rewrite filter_no_stop_words.
  rewrite (map_exc_id _ (split_space doc)).
  - simpl. now rewrite join_split.
  - intros word Hword. simpl. now rewrite (Hfix doc word Hdoc Hword).
Qed.

Lemma stem_lem_documents_count stop_words documents model stemmer out :
  stem_lem_documents E stop_words documents model stemmer = Ok out ->
  exists l l', py_iter E documents = Ok l /\ out = PyList l' /\
               List.length l' = List.length l.
Proof.
  unfold stem_lem_documents. intro H.
  destruct (py_iter E documents) as [l | e]; [ | discriminate H ].
  simpl in H.
  destruct (map_exc _ l) as [l' | e] eqn:Hmap; [ | discriminate H ].
  inversion H; subst. exists l, l'. repeat split.
  now apply map_exc_length in Hmap.
Qed.

Lemma same_count_refl d : same_count E d d.
Proof. intros l Hl. exists l. auto. Qed.

Lemma same_count_trans d1 d2 d3 :
  same_count E d1 d2 -> same_count E d2 d3 -> same_count E d1 d3.
Proof.
  intros H12 H23 l Hl. destruct (H12 l Hl) as (l2 & Hl2 & Hlen2).
  destruct (H23 l2 Hl2) as (l3 & Hl3 & Hlen3).
  exists l3. split; [ assumption | congruence ].
Qed.

Lemma stage_same_count stop_words documents model stemmer out :
  stem_lem_documents E stop_words documents model stemmer = Ok out ->
  same_count E documents out.
Proof.
  intros H l Hl.
  apply stem_lem_documents_count in H as (l0 & l' & Hl0 & -> & Hlen).
  rewrite Hl in Hl0. inversion Hl0; subst.
  exists l'. auto.
Qed.

(** The stem/lemmatize step gives one document for each document it is
    given, whatever the mode: when it returns, its result iterates to as
    many items as its argument. *)
Theorem stemlem_keeps_the_number_of_documents text_array self out :
  fst (_stemlem E text_array self) = Ok out ->
  same_count E text_array out.
Proof.
  rewrite NLPExtra._stemlem_run. cbn [fst]. unfold stemlem_result.
  destruct (py_contains E "wordnet" (stemlem self)) as [w | e];
    [ | discriminate ].
  cbn [exc_bind].
  assert (forall d (b : bool) m s,
            (if b then stem_lem_documents E [] d m s else Ok d) = Ok out ->
            same_count E d out) as Hstage.
  { intros d b m s H. destruct b.
    - eapply stage_same_count; eassumption.
    - inversion H; subst. apply same_count_refl. }
  destruct (if w then stem_lem_documents E [] text_array WordNetLemmatizer false
            else Ok text_array) as [d1 | e] eqn:H1; [ | discriminate ].
  assert (same_count E text_array d1) as Hc1.
  { destruct w.
    - eapply stage_same_count; eassumption.
    - inversion H1; subst. apply same_count_refl. }
  cbn [exc_bind].
  destruct (py_contains E "snowball" (stemlem self)) as [sb | e];
    [ | discriminate ].
  cbn [exc_bind].
  destruct (if sb then stem_lem_documents E [] d1 SnowballStemmer_english true
            else _) as [d2 | e] eqn:H2; [ | discriminate ].
  assert (same_count E d1 d2) as Hc2.
  { destruct sb.
    - eapply stage_same_count; eassumption.
    - destruct (py_contains E "porter" (stemlem self)) as [pt | e];
        [ | discriminate H2 ].
      cbn [exc_bind] in H2. destruct pt.
      + eapply stage_same_count; eassumption.
      + inversion H2; subst. apply same_count_refl. }
  cbn [exc_bind]. intro H.
  apply (same_count_trans _ d1); [ assumption | ].
  apply (same_count_trans _ d2); [ assumption | ].
  destruct (eq_empty_str (stemlem self)).
  - destruct (py_iter E d2) as [l2 | e] eqn:Hl2; [ | discriminate H ].
    inversion H; subst. intros l Hl. rewrite Hl2 in Hl. inversion Hl; subst.
    exists l. auto.
  - inversion H; subst. apply same_count_refl.
Qed.

End WithCollaborators.

(** Two documents without the one word the reference lemmatizer changes. *)
Lemma lemmatizing_known_words_keeps_documents_witness :
  (forall doc word,
     In doc ["new  york jobs"; " los angeles"] ->
     In word (split_space doc) ->
     wordnet_lemmatize (Reference.env []) word = word) /\
  stem_lem_documents (Reference.env [])
    [] (PyList (map PyStr ["new  york jobs"; " los angeles"]))
    WordNetLemmatizer false
  = Ok (PyList (map PyStr ["new  york jobs"; " los angeles"])).
Proof.
  assert (forall doc word,
            In doc ["new  york jobs"; " los angeles"] ->
            In word (split_space doc) ->
            wordnet_lemmatize (Reference.env []) word = word) as H.
  { intros doc word [<- | [<- | []]] Hw; vm_compute in Hw;
      repeat (destruct Hw as [<- | Hw]; [ reflexivity | ]); destruct Hw. }
  split; [ exact H | ].
  exact (lemmatizing_known_words_keeps_documents (Reference.env []) _ H).
Defined.

(** The three adverts through the lemmatizer and the snowball stemmer. *)
Lemma stemlem_keeps_the_number_of_documents_witness :
  exists out,
    fst (_stemlem (Reference.env [])
           (PyList [PyStr "the cities jobs"; PyStr "jobs"; PyStr ""])
           (mk PyNone (PyStr "wordnet snowball") (PyInt 1) (PyFloat (Fin 1))
               (PyInt 2) None (PyInt 1) true false)) = Ok out /\
    same_count (Reference.env [])
      (PyList [PyStr "the cities jobs"; PyStr "jobs"; PyStr ""]) out.
Proof.
  eexists. split; [ vm_compute; reflexivity | ].
  eapply (stemlem_keeps_the_number_of_documents (Reference.env [])
            (PyList [PyStr "the cities jobs"; PyStr "jobs"; PyStr ""])
            (mk PyNone (PyStr "wordnet snowball") (PyInt 1) (PyFloat (Fin 1))
                (PyInt 2) None (PyInt 1) true false)).
  vm_compute. reflexivity.
Defined.

End StemExtra.

Module FeaturesExtra.

Import JHPModel JHPFeatures.
Import Permutation Sorted.

(** *** The order on scored names *)

Lemma tuple_ltb_spec (a b : scored) : tuple_ltb a b = true <-> tuple_lt a b.
Proof.
  unfold tuple_ltb, tuple_lt, String.ltb.
  destruct (Qcompare (fst a) (fst b)) eqn:Hq.
  - apply Qeq_alt in Hq.
    destruct (String.compare (snd a) (snd b)) eqn:Hs; split;
      try discriminate; try (intros _; right; split; [ assumption | ]);
      try (now apply OrderedTypeEx.String_as_OT.cmp_lt);
      intros [Hlt | [_ Hlt]];
      try (rewrite Hq in Hlt; now apply Qlt_irrefl in Hlt);
      apply OrderedTypeEx.String_as_OT.cmp_lt in Hlt;
      unfold OrderedTypeEx.String_as_OT.cmp in Hlt; congruence.
  - apply Qlt_alt in Hq. split; auto.
  - apply Qgt_alt in Hq. split; [ discriminate | ].
    intros [Hlt | [Heq _]].
    + exfalso. apply (Qlt_irrefl (fst a)). now apply Qlt_trans with (fst b).
    + exfalso. rewrite Heq in Hq. now apply Qlt_irrefl in Hq.
Qed.

Lemma string_lt_trichotomy (s1 s2 : string) :
  OrderedTypeEx.String_as_OT.lt s1 s2 \/ s1 = s2 \/
  OrderedTypeEx.String_as_OT.lt s2 s1.
Proof.
  destruct (String.compare s1 s2) eqn:Hc.
  - right; left. now apply OrderedTypeEx.String_as_OT.cmp_eq.
  - left. now apply OrderedTypeEx.String_as_OT.cmp_lt.
  - right; right. apply OrderedTypeEx.String_as_OT.cmp_lt.
    unfold OrderedTypeEx.String_as_OT.cmp.
    rewrite String.compare_antisym, Hc. reflexivity.
Qed.

Lemma tuple_lt_asym (a b : scored) : tuple_lt a b -> ~ tuple_lt b a.
Proof.
  intros [Hab | [Heq Hs]] [Hba | [Heq' Hs']].
  - apply (Qlt_irrefl (fst a)). now apply Qlt_trans with (fst b).
  - rewrite Heq' in Hab. now apply Qlt_irrefl in Hab.
  - rewrite Heq in Hba. now apply Qlt_irrefl in Hba.
  - apply (OrderedTypeEx.String_as_OT.lt_not_eq (snd a) (snd a));
      [ | reflexivity ].
    now apply OrderedTypeEx.String_as_OT.lt_trans with (snd b).
Qed.

Lemma tuple_lt_cotrans (c a b : scored) :
  tuple_lt c a -> tuple_lt c b \/ tuple_lt b a.
Proof.
  intro Hca. unfold tuple_lt in *.
  destruct (Q_dec (fst c) (fst b)) as [[Hlt | Hgt] | Heq].
  - left. now left.
  - right. left. destruct Hca as [Hca | [Hca _]].
    + now apply Qlt_trans with (fst c).
    + now rewrite <- Hca.
  - destruct Hca as [Hca | [Hca Hs]].
    + right. left. now rewrite <- Heq.
    + destruct (string_lt_trichotomy (snd c) (snd b)) as [H | [H | H]].
      * left. right. auto.
      * right. right. split; [ now rewrite <- Heq | now rewrite <- H ].
      * right. right. split; [ now rewrite <- Heq | ].
        now apply OrderedTypeEx.String_as_OT.lt_trans with (snd c).
Qed.

Lemma tuple_le_of_lt (a b : scored) : tuple_ltb a b = true -> tuple_le a b.
Proof.
  intro H. unfold tuple_le.
  destruct (tuple_ltb b a) eqn:Hba; [ | reflexivity ].
  apply tuple_ltb_spec in H. apply tuple_ltb_spec in Hba.
  now apply tuple_lt_asym in H.
Qed.

Lemma tuple_le_trans (a b c : scored) :
  tuple_le a b -> tuple_le b c -> tuple_le a c.
Proof.
  unfold tuple_le. intros Hab Hbc.
  destruct (tuple_ltb c a) eqn:Hca; [ | reflexivity ].
  apply tuple_ltb_spec in Hca.
  destruct (tuple_lt_cotrans c a b Hca) as [H | H];
    apply tuple_ltb_spec in H; congruence.
Qed.

(** *** [sorted] *)

Lemma insert_permutation (x : scored) (l : list scored) :
  Permutation (insert x l) (x :: l).
Proof.
  induction l as [ | y rest IH ]; simpl.
  - apply Permutation_refl.
  - destruct (tuple_ltb y x).
    + apply perm_trans with (y :: x :: rest);
        [ now apply perm_skip | apply perm_swap ].
    + apply Permutation_refl.
Qed.

Lemma sorted_permutation (l : list scored) : Permutation (sorted l) l.
Proof.
  induction l as [ | x rest IH ]; simpl.
  - apply Permutation_refl.
  - apply perm_trans with (x :: sorted rest);
      [ apply insert_permutation | now apply perm_skip ].
Qed.

Lemma insert_strongly_sorted (x : scored) (l : list scored) :
  StronglySorted tuple_le l -> StronglySorted tuple_le (insert x l).
Proof.
  induction 1 as [ | y rest Hrest IH Hall ]; simpl.
  - repeat constructor.
  - destruct (tuple_ltb y x) eqn:Hyx.
    + constructor; [ assumption | ].
      apply (Permutation_Forall (Permutation_sym (insert_permutation x rest))).
      constructor; [ now apply tuple_le_of_lt | assumption ].
    + constructor; [ now constructor | ].
      constructor; [ exact Hyx | ].
      apply Forall_forall. intros z Hz. rewrite Forall_forall in Hall.
      apply tuple_le_trans with y; [ exact Hyx | now apply Hall ].
Qed.

Lemma sorted_strongly_sorted (l : list scored) :
  StronglySorted tuple_le (sorted l).
Proof.
  induction l as [ | x rest IH ]; simpl.
  - constructor.
  - now apply insert_strongly_sorted.
Qed.

(** *** Slices *)

Lemma slice_to_firstn {A} (l : list A) (n : Z) :
  0 <= n -> slice_to l n = firstn (Z.to_nat n) l.
Proof.
  intro Hn. unfold slice_to.
  destruct (Z.ltb_spec n 0); [ lia | ].
  destruct (Z.le_ge_cases n (Z.of_nat (List.length l))).
  - now rewrite Z.min_l.
  - rewrite Z.min_r, Nat2Z.id by assumption.
    rewrite !firstn_all2; [ reflexivity | lia | lia ].
Qed.

Lemma slice_rev_to_firstn {A} (l : list A) (n : Z) :
  0 <= n -> slice_rev_to l (- (n + 1)) = firstn (Z.to_nat n) (rev l).
Proof.
  intro Hn. unfold slice_rev_to.
  destruct (Z.ltb_spec (- (n + 1)) 0); [ | lia ].
  rewrite firstn_rev. do 2 f_equal. lia.
Qed.

Lemma firstn_combine {A B} (n : nat) (l : list A) (l' : list B) :
  combine (firstn n l) (firstn n l') = firstn n (combine l l').
Proof.
  revert l l'. induction n as [ | n IH ]; intros l l'; [ reflexivity | ].
  destruct l as [ | x l ]; [ reflexivity | ].
  destruct l' as [ | y l' ]; [ reflexivity | ].
  simpl. now rewrite IH.
Qed.

Section WithImportances.

Variable feature_importances_ : pyval -> exc (list Q).

(** Asked for [n >= 0] features on a fitted pipeline, the method sorts the
    (score, name) pairs in ascending order and prints the first [n] pairs of
    the sorted list against the first [n] of its reverse: line [i] shows the
    [i]-th least important feature beside the [i]-th most important one. It
    prints at most as many lines as there are features and leaves the
    pipeline as it was. *)
Theorem show_informative_features_pairs_low_with_high n self v names scores :
  0 <= n ->
  NLPProcessing.vectorize (processing self) = Some v ->
  vz_vocabulary v = Some names ->
  feature_importances_ (model self) = Ok scores ->
  exists ordered,
    show_informative_features feature_importances_ n self =
      (Ok (firstn (Z.to_nat n) (combine ordered (rev ordered))), self) /\
    Permutation ordered (combine scores names) /\
    StronglySorted tuple_le ordered.
Proof.
  intros Hn Hv Hnames Hscores.
  exists (sorted (combine scores names)).
  split; [ | split; [ apply sorted_permutation | apply sorted_strongly_sorted ] ].
  unfold show_informative_features, bind, get, call, ret, get_feature_names.
  rewrite Hv, Hnames, Hscores.
  now rewrite slice_to_firstn, slice_rev_to_firstn, firstn_combine.
Qed.

(** On a pipeline whose preprocessor holds no fitted vocabulary the method
    raises before it reads the classifier: AttributeError when there is no
    vectorizer, the vectorizer's not-fitted error when its fit did not
    complete. The pipeline is left as it was. *)
Theorem show_informative_features_before_fit_raises n self :
  NLPFacts.no_vocabulary (processing self) ->
  show_informative_features feature_importances_ n self =
  (Raise (match NLPProcessing.vectorize (processing self) with
          | None => AttributeError "get_feature_names"
          | Some _ => NotFittedError
          end), self).
Proof.
  unfold NLPFacts.no_vocabulary. intro H.
  unfold show_informative_features, bind, get, call, get_feature_names.
  destruct (NLPProcessing.vectorize (processing self)) as [v | ];
    [ now rewrite H | reflexivity ].
Qed.

End WithImportances.

(** The most and the least important of the five terms. *)
Lemma show_informative_features_pairs_low_with_high_witness :
  0 <= 1 /\
  NLPProcessing.vectorize (processing (pipeline_with (Some five_terms)))
    = Some five_terms /\
  vz_vocabulary five_terms = Some ["a"; "b"; "c"; "d"; "e"] /\
  five_scores (model (pipeline_with (Some five_terms)))
    = Ok [1 # 10; 5 # 10; 5 # 100; 3 # 10; 2 # 10]%Q /\
  exists ordered,
    show_informative_features five_scores 1 (pipeline_with (Some five_terms)) =
      (Ok (firstn (Z.to_nat 1) (combine ordered (rev ordered))),
       pipeline_with (Some five_terms)) /\
    Permutation ordered
      (combine [1 # 10; 5 # 10; 5 # 100; 3 # 10; 2 # 10]%Q
               ["a"; "b"; "c"; "d"; "e"]) /\
    StronglySorted tuple_le ordered.
Proof.
  assert (0 <= 1) as Hn by lia.
  split; [ exact Hn | ]. split; [ reflexivity | ].
  split; [ reflexivity | ]. split; [ reflexivity | ].
  exact (show_informative_features_pairs_low_with_high five_scores 1
           (pipeline_with (Some five_terms)) five_terms
           ["a"; "b"; "c"; "d"; "e"]
           [1 # 10; 5 # 10; 5 # 100; 3 # 10; 2 # 10]%Q
           Hn eq_refl eq_refl eq_refl).
Defined.

Lemma show_informative_features_before_fit_raises_witness :
  NLPFacts.no_vocabulary (processing (pipeline_with None)) /\
  show_informative_features five_scores 20 (pipeline_with None) =
  (Raise (AttributeError "get_feature_names"), pipeline_with None).
Proof.
  assert (NLPFacts.no_vocabulary (processing (pipeline_with None))) as H
    by exact I.
  split; [ exact H | ].
  exact (show_informative_features_before_fit_raises five_scores 20
           (pipeline_with None) H).
Defined.

End FeaturesExtra.
